(** * SOD_FARM map-search scraper: extraction and resilience core

    A shallow embedding of [scrapper/models.py], [scrapper/extractors.py],
    [scrapper/core.py] and the validation of [scrapper/utils.py], followed
    by the properties of the specification stated over it.

    Conventions of the embedding.
    - A Python [str] is a Rocq [string] and a character is an [ascii]: a
      code point from 0 to 255.  The embedding covers text in this range
      (Latin-1), and the library functions used by the program
      ([str.strip], [str.lower], [re], [float], [int], [urllib.parse])
      are those of CPython 3.11 on such text.  Only [unquote] can lead
      out of the range, when an escape sequence stands for a code point
      above U+00FF; its definition says what is kept then.
    - A Python [float] is a [pyfloat]: the exact rational value of a
      finite binary64 number, an infinity, or NaN.  Decimal text is rounded
      to the nearest binary64 value, ties to even, as [float(str)] does.
    - An awaited browser call either returns or raises an [Exception]; it
      is an [outcome].  The browser itself is a script of answers
      ([Page], [World]) the program reads in the order of its control flow.
    - A page is a snapshot: what a selector matches and what the document
      holds change only when the program clicks.
    - Logging and the pauses of [asyncio.sleep] do not influence any value
      and are left out. *)

From Stdlib Require Import ZArith QArith Qabs Qround Qcanon Bool List Ascii String Lia.
Import ListNotations.
Close Scope Qc_scope.
Close Scope Q_scope.
Local Open Scope string_scope.

(** ** Python strings *)

Module Py.

Definition code (c : ascii) : nat := nat_of_ascii c.

Definition between (lo hi : nat) (c : ascii) : bool :=
  (lo <=? code c)%nat && (code c <=? hi)%nat.

(** [str.isspace] on one character, which is also the class [\s] of
    [re]: the white space of ASCII, the separators U+001C to U+001F,
    U+0085 and U+00A0. *)
Definition isspace (c : ascii) : bool :=
  between 9 13 c || between 28 32 c || (code c =? 133)%nat || (code c =? 160)%nat.

(** The decimal digits, [0-9]: the class [\d] of [re] and the digits
    [int] and [float] read. *)
Definition isdecimal (c : ascii) : bool := between 48 57 c.

(** The classes [A-Z], [a-z] and [a-zA-Z]. *)
Definition ascii_upper (c : ascii) : bool := between 65 90 c.
Definition ascii_lower (c : ascii) : bool := between 97 122 c.
Definition ascii_alpha (c : ascii) : bool := ascii_upper c || ascii_lower c.

(** [str.lower] on one character: the capital letters are [A-Z] and
    U+00C0 to U+00DE without the multiplication sign U+00D7; the small
    letter of each lies 32 further. *)
Definition lower_char (c : ascii) : ascii :=
  if ascii_upper c || between 192 214 c || between 216 222 c
  then ascii_of_nat (code c + 32) else c.

(** [s.lower()] *)
Fixpoint lower (s : string) : string :=
  match s with
  | EmptyString => EmptyString
  | String c s' => String (lower_char c) (lower s')
  end.

(** [s.startswith(p)] *)
Fixpoint startswith (s p : string) {struct p} : bool :=
  match p, s with
  | EmptyString, _ => true
  | String a p', String b s' => Ascii.eqb a b && startswith s' p'
  | String _ _, EmptyString => false
  end.

(** [needle in s] *)
Fixpoint contains (needle s : string) : bool :=
  startswith s needle ||
  match s with
  | EmptyString => false
  | String _ s' => contains needle s'
  end.

(** [any(x in s for x in needles)] *)
Definition contains_any (needles : list string) (s : string) : bool :=
  existsb (fun n => contains n s) needles.

(** [s.lstrip()] and [s.lstrip(chars)] *)
Fixpoint lstrip_by (p : ascii -> bool) (s : string) : string :=
  match s with
  | EmptyString => EmptyString
  | String c s' => if p c then lstrip_by p s' else s
  end.

(** [s.rstrip()] *)
Fixpoint rstrip_by (p : ascii -> bool) (s : string) : string :=
  match s with
  | EmptyString => EmptyString
  | String c s' =>
      match rstrip_by p s' with
      | EmptyString => if p c then EmptyString else String c EmptyString
      | r => String c r
      end
  end.

(** [s.strip()] *)
Definition strip (s : string) : string := rstrip_by isspace (lstrip_by isspace s).

Definition in_chars (chars : string) (c : ascii) : bool :=
  existsb (Ascii.eqb c) (list_ascii_of_string chars).

(** [s.lstrip(chars)] *)
Definition lstrip_chars (chars s : string) : string := lstrip_by (in_chars chars) s.

(** [s[:n]] and [s[n:]] *)
Fixpoint take (n : nat) (s : string) : string :=
  match n, s with
  | S n', String c s' => String c (take n' s')
  | _, _ => EmptyString
  end.

Fixpoint drop (n : nat) (s : string) : string :=
  match n, s with
  | S n', String _ s' => drop n' s'
  | _, _ => s
  end.

(** [s.replace(c, "")] for a one-character [c] *)
Fixpoint remove_char (p : ascii -> bool) (s : string) : string :=
  match s with
  | EmptyString => EmptyString
  | String c s' => if p c then remove_char p s' else String c (remove_char p s')
  end.

(** [s.replace(a, b)] for one-character [a] and [b] *)
Fixpoint replace_char (a b : ascii) (s : string) : string :=
  match s with
  | EmptyString => EmptyString
  | String c s' => String (if Ascii.eqb c a then b else c) (replace_char a b s')
  end.

(** [s.partition(c)] for a one-character separator: the text before the
    first [c] and, when [c] occurs, the text after it. *)
Fixpoint partition (p : ascii -> bool) (s : string) : string * option string :=
  match s with
  | EmptyString => (EmptyString, None)
  | String c s' =>
      if p c then (EmptyString, Some s')
      else let '(h, t) := partition p s' in (String c h, t)
  end.

(** [s.split(c)] for a one-character separator *)
Fixpoint split (sep : ascii) (s : string) : list string :=
  match s with
  | EmptyString => [EmptyString]
  | String c s' =>
      if Ascii.eqb c sep then EmptyString :: split sep s'
      else match split sep s' with
           | [] => [String c EmptyString]
           | h :: t => String c h :: t
           end
  end.

(** Truth value of an optional string: [None] and [""] are false. *)
Definition truthy (o : option string) : bool :=
  match o with
  | Some (String _ _) => true
  | _ => false
  end.

(** [a or b] on optional strings *)
Definition or_else (a b : option string) : option string :=
  if truthy a then a else b.

(** The value of a run of decimal digits. *)
Fixpoint digits_value (acc : Z) (s : string) : Z :=
  match s with
  | EmptyString => acc
  | String c s' => digits_value (10 * acc + Z.of_nat (code c - 48)) s'
  end.

Definition all_chars (p : ascii -> bool) (s : string) : bool :=
  forallb p (list_ascii_of_string s).

(** [int(s)] for a string of decimal digits as produced by [\d+].  The
    conversion refuses more than 4300 digits (CPython's default
    [int_max_str_digits]) with ValueError, here [None]. *)
Definition int_of_digits (s : string) : option Z :=
  if all_chars isdecimal s && negb (String.eqb s "") && (String.length s <=? 4300)%nat
  then Some (digits_value 0 s) else None.

End Py.

(** ** Python floats *)

Module Float.

Inductive pyfloat : Type :=
| Finite (q : Q)            (* the exact value of a finite binary64 number *)
| Inf (negative : bool)
| NaN.

Definition zero : pyfloat := Finite 0%Q.

Definition pow2 (e : Z) : Q :=
  if (0 <=? e)%Z then inject_Z (2 ^ e) else (1 # Z.to_pos (2 ^ (- e)))%Q.

(** Nearest integer to [n / d], ties to even ([n >= 0], [d > 0]). *)
Definition div_half_even (n d : Z) : Z :=
  let q := (n / d)%Z in
  let r := (n mod d)%Z in
  if (2 * r <? d)%Z then q
  else if (d <? 2 * r)%Z then (q + 1)%Z
  else if Z.even q then q else (q + 1)%Z.

(** Floor of the binary logarithm of [n / d] ([n > 0], [d > 0]). *)
Definition ilog2_ratio (n d : Z) : Z :=
  let l := (Z.log2 n - Z.log2 d)%Z in
  let ge := if (0 <=? l)%Z then (d * 2 ^ l <=? n)%Z else (d <=? n * 2 ^ (- l))%Z in
  if ge then l else (l - 1)%Z.

(** The binary64 number nearest to [n / d] ([n > 0], [d > 0]): a 53-bit
    significand at exponent [e >= -1074]; [None] when the rounded value
    exceeds the largest finite binary64 number. *)
Definition round_pos (n d : Z) : option Q :=
  let e := Z.max (ilog2_ratio n d - 52) (-1074) in
  let m := if (0 <=? e)%Z then div_half_even n (d * 2 ^ e)
           else div_half_even (n * 2 ^ (- e)) d in
  if (0 <=? e)%Z && (2 ^ 1024 <=? m * 2 ^ e)%Z then None
  else Some (Qred (inject_Z m * pow2 e)%Q).

(** Rounding of an arbitrary rational [n / d] with [d > 0]. *)
Definition round (n d : Z) : pyfloat :=
  match n with
  | Z0 => zero
  | Zpos _ => match round_pos n d with Some q => Finite q | None => Inf false end
  | Zneg _ => match round_pos (- n) d with Some q => Finite (Qopp q) | None => Inf true end
  end.

(** Comparison of floats; every comparison with NaN is false. *)
Definition le (a b : pyfloat) : bool :=
  match a, b with
  | NaN, _ | _, NaN => false
  | Inf true, _ => true
  | _, Inf false => true
  | Inf false, _ => false
  | _, Inf true => false
  | Finite x, Finite y => Qle_bool x y
  end.

Definition lt (a b : pyfloat) : bool :=
  match a, b with
  | NaN, _ | _, NaN => false
  | Inf true, Inf true => false
  | Inf true, _ => true
  | Inf false, _ => false
  | Finite _, Inf false => true
  | Finite _, Inf true => false
  | Finite x, Finite y => negb (Qle_bool y x)
  end.

(** An [int] compared with a float is compared by exact value. *)
Definition of_int (z : Z) : pyfloat := Finite (inject_Z z).

(** [abs(x)] *)
Definition fabs (a : pyfloat) : pyfloat :=
  match a with
  | Finite q => Finite (Qabs q)
  | Inf _ => Inf false
  | NaN => NaN
  end.

(** The literal [0.001]. *)
Definition lit_0_001 : pyfloat := round 1 1000.

(** [lo <= x <= hi] for integer bounds *)
Definition in_range (lo hi : Z) (x : pyfloat) : bool :=
  le (of_int lo) x && le x (of_int hi).

(** *** [float(str)] *)

(** A digit part [digit (["_"] digit)*] at the head of [s]: its digits
    (underscores dropped) and the rest.  [None] when [s] does not start
    with a digit. *)
Fixpoint digitpart_from (prev_digit : bool) (s : string) : string * string :=
  match s with
  | String c s' =>
      if Py.isdecimal c then
        let '(ds, rest) := digitpart_from true s' in (String c ds, rest)
      else if Ascii.eqb c "_" && prev_digit then
        match s' with
        | String c' _ =>
            if Py.isdecimal c' then digitpart_from false s' else (EmptyString, s)
        | EmptyString => (EmptyString, s)
        end
      else (EmptyString, s)
  | EmptyString => (EmptyString, s)
  end.

Definition digitpart (s : string) : string * string := digitpart_from false s.

Definition take_sign (s : string) : bool * string :=
  match s with
  | String "-" s' => (true, s')
  | String "+" s' => (false, s')
  | _ => (false, s)
  end.

(** The value [digits * 10^shift] rounded to binary64, for a significand
    written with [len] digits.  At [shift >= 310] a non-zero value exceeds
    every finite binary64 number, and at [len + shift <= -330] it lies
    below half of the smallest positive one; both are answered without
    computing the power of ten. *)
Definition decimal_value (neg : bool) (digits : Z) (len : Z) (shift : Z) : pyfloat :=
  let n := if neg then (- digits)%Z else digits in
  match digits with
  | Z0 => zero
  | _ => if (310 <=? shift)%Z then Inf neg
         else if (len + shift <=? -330)%Z then zero
         else if (0 <=? shift)%Z then round (n * 10 ^ shift) 1
         else round n (10 ^ (- shift))
  end.

(** The white space [float] skips around a number: the white space of C
    (tab to carriage return, and the blank) and, of the characters above
    127, the two spaces U+0085 and U+00A0, which the conversion turns
    into blanks first.  The separators U+001C to U+001F, which
    [str.strip] removes, are not skipped. *)
Definition skipped (c : ascii) : bool :=
  Py.between 9 13 c || (Py.code c =? 32)%nat ||
  (Py.code c =? 133)%nat || (Py.code c =? 160)%nat.

(** [float(s)]: optional surrounding white space, optional sign, then
    [inf], [infinity], [nan] (any case) or a decimal number with an
    optional exponent.  [None] is ValueError. *)
Definition float_of_string (s : string) : option pyfloat :=
  let '(neg, body) := take_sign (Py.rstrip_by skipped (Py.lstrip_by skipped s)) in
  let low := Py.lower body in
  if String.eqb low "inf" || String.eqb low "infinity" then Some (Inf neg)
  else if String.eqb low "nan" then Some NaN
  else
    let '(ip, r1) := digitpart body in
    let '(fp, r2) :=
      match r1 with
      | String "." r => digitpart r
      | _ => (EmptyString, r1)
      end in
    if String.eqb ip "" && String.eqb fp "" then None
    else
      let mant := Py.digits_value 0 (ip ++ fp) in
      let len := Z.of_nat (String.length (ip ++ fp)) in
      let frac := Z.of_nat (String.length fp) in
      match r2 with
      | EmptyString => Some (decimal_value neg mant len (- frac))
      | String c r3 =>
          if Ascii.eqb c "e" || Ascii.eqb c "E" then
            let '(eneg, r4) := take_sign r3 in
            match digitpart r4 with
            | (String d ds, EmptyString) =>
                let ex := Py.digits_value 0 (String d ds) in
                Some (decimal_value neg mant len ((if eneg then - ex else ex) - frac))
            | _ => None
            end
          else None
      end.

(** [int(x)] for a float: truncation toward zero; [None] is the
    OverflowError or ValueError raised for an infinity or NaN. *)
Definition to_int (x : pyfloat) : option Z :=
  match x with
  | Finite q => Some (Z.quot (Qnum q) (Z.pos (Qden q)))
  | _ => None
  end.

(** [float(z)] for an [int]: nearest binary64 value; [None] is the
    OverflowError raised when [z] is too large. *)
Definition of_int_rounded (z : Z) : option pyfloat :=
  match round z 1 with
  | Inf _ => None
  | x => Some x
  end.

(** [x * 1.5] *)
Definition mul_1_5 (x : pyfloat) : pyfloat :=
  match x with
  | Finite q => round (Qnum q * 3) (Z.pos (Qden q) * 2)
  | other => other
  end.

End Float.

(** ** Regular expressions ([re])

    A backtracking matcher with the priorities of Python's [re]: the
    alternatives of a pattern are tried in order and the first complete
    match wins.  It covers the constructs the program's patterns use. *)

Module Re.

Inductive regex : Type :=
| Eps
| Lit (c : ascii)                          (* one literal character *)
| Cls (p : ascii -> bool)                  (* a character class *)
| Seq (r1 r2 : regex)
| Alt (r1 r2 : regex)                      (* r1|r2 *)
| Opt (r : regex)                          (* r? *)
| Rep (greedy : bool) (lo : nat) (r : regex) (* r{lo,}, greedy or lazy *)
| Grp (i : nat) (r : regex)                (* capturing group number i *)
| Ahead (r : regex)                        (* (?=r) *)
| Eos.                                     (* $ *)

(** Group contents, latest first. *)
Definition caps : Type := list (nat * string).

(** The part of [s] consumed when the rest is [s']. *)
Definition consumed (s s' : string) : string :=
  Py.take (String.length s - String.length s') s.

Fixpoint run (A : Type) (r : regex) (s : string) (c : caps)
    (k : string -> caps -> option A) {struct r} : option A :=
  match r with
  | Eps => k s c
  | Lit a =>
      match s with
      | String b s' => if Ascii.eqb a b then k s' c else None
      | EmptyString => None
      end
  | Cls p =>
      match s with
      | String b s' => if p b then k s' c else None
      | EmptyString => None
      end
  | Seq r1 r2 => run A r1 s c (fun s' c' => run A r2 s' c' k)
  | Alt r1 r2 =>
      match run A r1 s c k with
      | Some x => Some x
      | None => run A r2 s c k
      end
  | Opt r1 =>
      match run A r1 s c k with
      | Some x => Some x
      | None => k s c
      end
  | Rep greedy lo r1 =>
      (fix loop (fuel lo : nat) (s : string) (c : caps) {struct fuel} : option A :=
         let stop := match lo with O => k s c | S _ => None end in
         match fuel with
         | O => stop
         | S fuel' =>
             let more :=
               run A r1 s c (fun s' c' =>
                 if (String.length s' <? String.length s)%nat
                 then loop fuel' (Nat.pred lo) s' c' else None) in
             if greedy
             then match more with Some x => Some x | None => stop end
             else match stop with Some x => Some x | None => more end
         end) (String.length s) lo s c
  | Grp i r1 => run A r1 s c (fun s' c' => k s' ((i, consumed s s') :: c'))
  | Ahead r1 =>
      match run unit r1 s c (fun _ _ => Some tt) with
      | Some _ => k s c
      | None => None
      end
  | Eos =>
      match s with
      | EmptyString => k s c
      | String b EmptyString => if Ascii.eqb b "010" then k s c else None
      | _ => None
      end
  end.

Record found : Type := mkFound {
  whole : string;        (* group 0 *)
  groups : caps;
  rest : string          (* the text after the match *)
}.

(** A match starting exactly at the head of [s]. *)
Definition match_here (r : regex) (s : string) : option found :=
  run found r s [] (fun s' c => Some (mkFound (consumed s s') c s')).

(** [re.search(r, s)]: the leftmost match. *)
Fixpoint search (r : regex) (s : string) : option found :=
  match match_here r s with
  | Some m => Some m
  | None =>
      match s with
      | EmptyString => None
      | String _ s' => search r s'
      end
  end.

(** [m.group(i)] *)
Fixpoint group (i : nat) (c : caps) : option string :=
  match c with
  | [] => None
  | (j, v) :: c' => if Nat.eqb i j then Some v else group i c'
  end.

(** The matches [re.findall] and [re.sub] visit: leftmost first, not
    overlapping; after an empty match the scan moves one character on. *)
Fixpoint scan (fuel : nat) (r : regex) (s : string) : list found :=
  match fuel with
  | O => []
  | S fuel' =>
      match match_here r s with
      | Some m =>
          match whole m, s with
          | EmptyString, String _ s' => m :: scan fuel' r s'
          | EmptyString, EmptyString => [m]
          | _, _ => m :: scan fuel' r (rest m)
          end
      | None =>
          match s with
          | EmptyString => []
          | String _ s' => scan fuel' r s'
          end
      end
  end.

Definition finditer (r : regex) (s : string) : list found :=
  scan (S (String.length s)) r s.

(** [re.findall(r, s)] for a pattern with two groups: the pairs of group
    texts (a group that took no part gives the empty string). *)
Definition findall2 (r : regex) (s : string) : list (string * string) :=
  map (fun m => (match group 1 (groups m) with Some v => v | None => "" end,
                 match group 2 (groups m) with Some v => v | None => "" end))
      (finditer r s).

(** [re.findall(r, s)] for a pattern without groups: the matched texts. *)
Definition findall0 (r : regex) (s : string) : list string :=
  map whole (finditer r s).

(** [re.sub(r, '', s)]: [s] with every match removed. *)
Fixpoint remove (fuel : nat) (r : regex) (s : string) : string :=
  match fuel with
  | O => s
  | S fuel' =>
      match match_here r s with
      | Some m =>
          match whole m, s with
          | EmptyString, String b s' => String b (remove fuel' r s')
          | EmptyString, EmptyString => EmptyString
          | _, _ => remove fuel' r (rest m)
          end
      | None =>
          match s with
          | EmptyString => EmptyString
          | String b s' => String b (remove fuel' r s')
          end
      end
  end.

Definition sub_empty (r : regex) (s : string) : string :=
  remove (S (String.length s)) r s.

(** *** Pattern combinators *)

Fixpoint lits (s : string) : regex :=
  match s with
  | EmptyString => Eps
  | String c EmptyString => Lit c
  | String c s' => Seq (Lit c) (lits s')
  end.

Fixpoint seqs (rs : list regex) : regex :=
  match rs with
  | [] => Eps
  | [r] => r
  | r :: rs' => Seq r (seqs rs')
  end.

Definition digit : regex := Cls Py.isdecimal.                      (* \d *)
Definition dot : regex := Cls (fun c => negb (Ascii.eqb c "010")). (* . *)
Definition star (r : regex) : regex := Rep true 0 r.              (* r* *)
Definition plus (r : regex) : regex := Rep true 1 r.              (* r+ *)
Definition lazy_star (r : regex) : regex := Rep false 0 r.        (* r*? *)

(** [-?\d+\.?\d*] *)
Definition number : regex :=
  seqs [Opt (Lit "-"); plus digit; Opt (Lit "."); star digit].

(** [number] in parentheses, as capturing group [i] *)
Definition gnum (i : nat) : regex := Grp i number.

End Re.

(** ** [urllib.parse] and [ipaddress]

    [urlsplit], [parse_qs] and [unquote] as in CPython 3.11, for the
    components the program reads: [urlparse(url).netloc] and
    [urlparse(url).query] are those of [urlsplit]. *)

Module Urllib.

Definition ishex (c : ascii) : bool :=
  Py.isdecimal c || Py.between 65 70 c || Py.between 97 102 c.

Definition hex_value (c : ascii) : nat :=
  if Py.isdecimal c then Py.code c - 48
  else if Py.between 65 70 c then Py.code c - 55
  else Py.code c - 87.

(** [unquote] with the default arguments: every [%XY] with two
    hexadecimal digits stands for the byte [XY], and the bytes are read
    as UTF-8.  A byte below 128 is its character; the two-byte sequences
    that start with C2 or C3 are the characters U+0080 to U+00FF.  Any
    other sequence decodes to a code point above U+00FF or to the
    replacement character, text that a [string] cannot hold: its bytes
    are kept as they are. *)
Fixpoint unquote (s : string) : string :=
  match s with
  | EmptyString => EmptyString
  | String c s' =>
      match s' with
      | String a (String b r) =>
          if Ascii.eqb c "%" && ishex a && ishex b then
            let n := 16 * hex_value a + hex_value b in
            match r with
            | String c2 (String a2 (String b2 r2)) =>
                let m := 16 * hex_value a2 + hex_value b2 in
                if Py.between 194 195 (ascii_of_nat n) &&
                   Ascii.eqb c2 "%" && ishex a2 && ishex b2 &&
                   Py.between 128 191 (ascii_of_nat m)
                then String (ascii_of_nat (64 * (n - 192) + (m - 128))) (unquote r2)
                else String (ascii_of_nat n) (unquote r)
            | _ => String (ascii_of_nat n) (unquote r)
            end
          else String c (unquote s')
      | _ => String c (unquote s')
      end
  end.

(** [parse_qsl(qs)] with the default arguments. *)
Definition parse_qsl (qs : string) : list (string * string) :=
  match qs with
  | EmptyString => []
  | _ =>
      flat_map (fun name_value =>
        match Py.partition (Ascii.eqb "=") name_value with
        | (name, Some (String v vs)) =>
            [(unquote (Py.replace_char "+" " " name),
              unquote (Py.replace_char "+" " " (String v vs)))]
        | _ => []
        end) (Py.split "&" qs)
  end.

(** [parse_qs(qs)[key]] when [key in parse_qs(qs)]: the values of [key]
    in their order. *)
Definition parse_qs_get (key qs : string) : option (list string) :=
  match map snd (filter (fun nv => String.eqb (fst nv) key) (parse_qsl qs)) with
  | [] => None
  | vs => Some vs
  end.

(** *** IP literals *)

Definition octet_ok (s : string) : bool :=
  negb (String.eqb s "") && Py.all_chars Py.isdecimal s &&
  (String.length s <=? 3)%nat &&
  (String.eqb s "0" || negb (Py.startswith s "0")) &&
  (Py.digits_value 0 s <=? 255)%Z.

(** [IPv4Address(s)] succeeds *)
Definition ipv4_ok (s : string) : bool :=
  negb (Py.contains "/" s) &&
  let octets := Py.split "." s in
  (List.length octets =? 4)%nat && forallb octet_ok octets.

Definition hextet_ok (s : string) : bool :=
  negb (String.eqb s "") && Py.all_chars ishex s && (String.length s <=? 4)%nat.

Definition is_empty (s : string) : bool := String.eqb s "".

(** The index of the first empty string of [l]. *)
Fixpoint index_of_empty (l : list string) : nat :=
  match l with
  | [] => O
  | p :: l' => if is_empty p then O else S (index_of_empty l')
  end.

(** [_ip_int_from_string] of an IPv6 address succeeds *)
Definition ipv6_groups_ok (ip_str : string) : bool :=
  let parts0 := Py.split ":" ip_str in
  negb (is_empty ip_str) && (3 <=? List.length parts0)%nat &&
  let last0 := List.last parts0 "" in
  let v4 := Py.contains "." last0 in
  (negb v4 || ipv4_ok last0) &&
  (* an IPv4 suffix is replaced by two hextets *)
  let parts := if v4 then (List.removelast parts0 ++ ["0"; "0"])%list else parts0 in
  let n := List.length parts in
  (n <=? 9)%nat &&
  (* the parts strictly between the first and the last *)
  let inner := List.removelast (List.tl parts) in
  let first_empty := is_empty (List.hd "" parts) in
  let last_empty := is_empty (List.last parts "") in
  match List.length (filter is_empty inner) with
  | O => (n =? 8)%nat && negb first_empty && negb last_empty &&
         forallb hextet_ok parts
  | S O =>
      let skip_index := S (index_of_empty inner) in
      let parts_hi := if first_empty then skip_index - 1 else skip_index in
      let parts_lo := if last_empty then n - skip_index - 2 else n - skip_index - 1 in
      (negb first_empty || (parts_hi =? 0)%nat) &&
      (negb last_empty || (parts_lo =? 0)%nat) &&
      (parts_hi + parts_lo <=? 7)%nat &&
      forallb hextet_ok (List.firstn parts_hi parts) &&
      forallb hextet_ok (List.skipn (n - parts_lo) parts)
  | _ => false
  end.

(** [IPv6Address(s)] succeeds *)
Definition ipv6_ok (s : string) : bool :=
  negb (Py.contains "/" s) &&
  match Py.partition (Ascii.eqb "%") s with
  | (addr, None) => ipv6_groups_ok addr
  | (addr, Some scope) =>
      negb (is_empty scope) && negb (Py.contains "%" scope) && ipv6_groups_ok addr
  end.

(** [re.match] of the IPvFuture pattern, [v], hexadecimal digits, a dot
    and at least one more character, against the whole host *)
Definition ipvfuture_ok (host : string) : bool :=
  match Re.run unit
          (Re.seqs [Re.Lit "v"; Re.plus (Re.Cls ishex); Re.Lit "."; Re.plus Re.dot])
          host []
          (fun r _ => if is_empty r then Some tt else None) with
  | Some _ => true
  | None => false
  end.

(** [_check_bracketed_host] returns without ValueError *)
Definition check_bracketed_host (host : string) : bool :=
  if Py.startswith host "v" then ipvfuture_ok host else ipv6_ok host.

(** [s.rpartition(c)[2]]: the text after the last [c], or all of [s] *)
Fixpoint after_last (c : ascii) (s : string) : string :=
  match s with
  | EmptyString => EmptyString
  | String b s' =>
      if Py.contains (String c EmptyString) s' then after_last c s'
      else if Ascii.eqb b c then s' else s
  end.

(** [_check_bracketed_netloc] returns without ValueError *)
Definition check_bracketed_netloc (netloc : string) : bool :=
  let hostname_and_port := after_last "@" netloc in
  match Py.partition (Ascii.eqb "[") hostname_and_port with
  | (before_bracket, Some bracketed) =>
      is_empty before_bracket &&
      let '(hostname, port) := Py.partition (Ascii.eqb "]") bracketed in
      match port with
      | Some (String c _) => Ascii.eqb c ":"
      | _ => true
      end && check_bracketed_host hostname
  | (_, None) =>
      check_bracketed_host (fst (Py.partition (Ascii.eqb ":") hostname_and_port))
  end.

(** *** [urlsplit] *)

Record SplitResult : Type := mkSplit {
  scheme : string;
  netloc : string;
  path : string;
  query : string;
  fragment : string
}.

Definition scheme_char (c : ascii) : bool :=
  Py.ascii_alpha c || Py.isdecimal c || Py.in_chars "+-." c.

Definition c0_or_space (c : ascii) : bool := (Py.code c <=? 32)%nat.

Definition tab_cr_lf (c : ascii) : bool :=
  Ascii.eqb c "009" || Ascii.eqb c "013" || Ascii.eqb c "010".

Definition or_empty (o : option string) : string :=
  match o with Some s => s | None => "" end.

(** [urlsplit(url)]; [None] is ValueError. *)
Definition urlsplit (url0 : string) : option SplitResult :=
  let url := Py.remove_char tab_cr_lf (Py.lstrip_by c0_or_space url0) in
  (* scheme *)
  let '(sch, url) :=
    match Py.partition (Ascii.eqb ":") url with
    | (String c cs, Some after) =>
        if Py.ascii_alpha c && Py.all_chars scheme_char (String c cs)
        then (Py.lower (String c cs), after) else ("", url)
    | _ => ("", url)
    end in
  (* network location *)
  let '(nl, url) :=
    if Py.startswith url "//" then
      let r := Py.drop 2 url in
      let n := fst (Py.partition (Py.in_chars "/?#") r) in
      (n, Py.drop (String.length n) r)
    else ("", url) in
  let lb := Py.contains "[" nl in
  let rb := Py.contains "]" nl in
  if xorb lb rb then None
  else if lb && rb && negb (check_bracketed_netloc nl) then None
  else
    let '(url, frag) := Py.partition (Ascii.eqb "#") url in
    let '(url, qry) := Py.partition (Ascii.eqb "?") url in
    Some (mkSplit sch nl url (or_empty qry) (or_empty frag)).

End Urllib.

(** ** [models.py] *)

Module Models.

Import Float.

Record Place : Type := mkPlace {
  name : option string;
  address : option string;
  phone : option string;
  website : option string;
  image_url : option string;
  rating : option pyfloat;
  reviews_count : option Z;
  latitude : option pyfloat;
  longitude : option pyfloat
}.

(** [Place()] *)
Definition empty_place : Place :=
  mkPlace None None None None None None None None None.

(** [Place.has_coordinates] *)
Definition has_coordinates (self : Place) : bool :=
  match latitude self, longitude self with
  | Some lat, Some lng => in_range (-90) 90 lat && in_range (-180) 180 lng
  | _, _ => false
  end.

(** [Place.get_google_maps_url]; [fmt] is the way an f-string writes a
    float, which the embedding leaves open. *)
Definition get_google_maps_url (fmt : pyfloat -> string) (self : Place) : option string :=
  if has_coordinates self then
    match latitude self, longitude self with
    | Some lat, Some lng =>
        Some ("https://www.google.com/maps?q=" ++ fmt lat ++ "," ++ fmt lng)
    | _, _ => None
    end
  else None.

(** [Place.csv_headers] *)
Definition csv_headers : list string :=
  ["name"; "address"; "phone"; "website"; "image_url"; "rating";
   "reviews_count"; "latitude"; "longitude"].

(** A cell of a CSV row or a value of [to_dict]. *)
Inductive value : Type :=
| VNone
| VStr (s : string)
| VInt (z : Z)
| VFloat (x : pyfloat).

Definition of_str (o : option string) : value :=
  match o with Some s => VStr s | None => VNone end.
Definition of_float (o : option pyfloat) : value :=
  match o with Some x => VFloat x | None => VNone end.
Definition of_int_opt (o : option Z) : value :=
  match o with Some z => VInt z | None => VNone end.

(** The truth value Python gives a cell. *)
Definition value_truthy (v : value) : bool :=
  match v with
  | VNone => false
  | VStr s => negb (String.eqb s "")
  | VInt z => negb (Z.eqb z 0)
  | VFloat (Finite q) => negb (Qeq_bool q 0)
  | VFloat _ => true
  end.

(** [v or ''] *)
Definition or_blank (v : value) : value :=
  if value_truthy v then v else VStr "".

(** [Place.to_dict] *)
Definition to_dict (self : Place) : list (string * value) :=
  [("name", of_str (name self));
   ("address", of_str (address self));
   ("phone", of_str (phone self));
   ("website", of_str (website self));
   ("image_url", of_str (image_url self));
   ("rating", of_float (rating self));
   ("reviews_count", of_int_opt (reviews_count self));
   ("latitude", of_float (latitude self));
   ("longitude", of_float (longitude self))].

(** [Place.to_csv_row] *)
Definition to_csv_row (self : Place) : list value :=
  [or_blank (of_str (name self));
   or_blank (of_str (address self));
   or_blank (of_str (phone self));
   or_blank (of_str (website self));
   or_blank (of_str (image_url self));
   or_blank (of_float (rating self));
   or_blank (of_int_opt (reviews_count self));
   or_blank (of_float (latitude self));
   or_blank (of_float (longitude self))].

End Models.

(** ** The browser page *)

(** The result of an awaited call: a value or a raised [Exception]. *)
Inductive outcome (A : Type) : Type :=
| Ok (a : A)
| Raise.
Arguments Ok {A} a.
Arguments Raise {A}.

Definition bind {A B : Type} (m : outcome A) (k : A -> outcome B) : outcome B :=
  match m with
  | Ok a => k a
  | Raise => Raise
  end.

Notation "x <- m ;; k" := (bind m (fun x => k))
  (at level 61, m at next level, right associativity).

(** An element a locator resolves to. *)
Record Element : Type := mkElement {
  text_content : outcome (option string);
  get_attribute : string -> outcome (option string)
}.

(** The page: its address, its document, what each selector matches (in
    document order), the wait [wait_for_timeout], and the page a click on
    the first match of a selector leads to. *)
#[local] Unset Elimination Schemes.
Inductive Page : Type := mkPage {
  url : string;
  content : outcome string;
  locator : string -> outcome (list Element);
  wait_for_timeout : outcome unit;
  click : string -> outcome Page
}.
#[local] Set Elimination Schemes.

(** [page.locator(selector).first] when [count() > 0] *)
Definition first_match (page : Page) (selector : string) : outcome (option Element) :=
  els <- locator page selector ;;
  Ok (List.hd_error els).

(** A loop over selectors whose body is wrapped in [try ... except:
    continue]: the first selector whose probe returns a value wins. *)
Fixpoint try_each {A : Type} (probe : string -> outcome (option A))
    (selectors : list string) : option A :=
  match selectors with
  | [] => None
  | selector :: rest =>
      match probe selector with
      | Ok (Some a) => Some a
      | _ => try_each probe rest
      end
  end.

(** [await a or await b] *)
Definition or_await (a b : outcome (option string)) : outcome (option string) :=
  v <- a ;;
  if Py.truthy v then Ok v else b.

(** ** [extractors.py] *)

Module Extractors.

Import Float Models.

Definition dquote : ascii := "034".
Definition squote : ascii := "039".

(** The text of the first match of [selector], stripped, when it is not
    blank: the body shared by [extract_name], [extract_address] and
    [extract_phone]. *)
Definition stripped_text (page : Page) (selector : string) : outcome (option string) :=
  element <- first_match page selector ;;
  match element with
  | None => Ok None
  | Some el =>
      text <- text_content el ;;
      match text with
      | Some t => if negb (String.eqb (Py.strip t) "") then Ok (Some (Py.strip t)) else Ok None
      | None => Ok None
      end
  end.

(** [extract_name] *)
Definition extract_name (page : Page) : option string :=
  let selectors :=
    ["h1[data-attrid=" ++ String dquote "title" ++ String dquote "]";
     "h1.DUwDvf";
     "[data-attrid=" ++ String dquote "title" ++ String dquote "] h1";
     "h1.x3AX1-LfntMc-header-title-title";
     ".x3AX1-LfntMc-header-title h1";
     "h1";
     ".qrShPb h1";
     ".SPZz6b h1"] in
  match try_each (stripped_text page) selectors with
  | Some n => Some n
  | None => Some "Unknown"
  end.

(** [extract_address] *)
Definition extract_address (page : Page) : option string :=
  let q := String dquote "" in
  let selectors :=
    ["[data-item-id=" ++ q ++ "address" ++ q ++ "] .Io6YTe";
     ".Io6YTe[data-value=" ++ q ++ "Address" ++ q ++ "]";
     "button[data-item-id=" ++ q ++ "address" ++ q ++ "]";
     "[data-attrid=" ++ q ++ "kc:/location/location:address" ++ q ++ "]";
     ".rogA2c .Io6YTe";
     "[data-item-id=" ++ q ++ "address" ++ q ++ "] span";
     "button[data-item-id=" ++ q ++ "address" ++ q ++ "] .Io6YTe"] in
  try_each (stripped_text page) selectors.

(** [extract_phone] *)
Definition extract_phone (page : Page) : option string :=
  let q := String dquote "" in
  let selectors :=
    ["[data-item-id=" ++ q ++ "phone:tel:" ++ q ++ "] .Io6YTe";
     "button[data-item-id^=" ++ q ++ "phone" ++ q ++ "]";
     "[data-value*=" ++ q ++ "phone" ++ q ++ "] .Io6YTe";
     "a[href^=" ++ q ++ "tel:" ++ q ++ "]";
     "[data-item-id*=" ++ q ++ "phone" ++ q ++ "] span";
     ".rogA2c a[href^=" ++ q ++ "tel:" ++ q ++ "]"] in
  try_each (stripped_text page) selectors.

(** The pattern of [extract_rating]: one group around digits, an
    optional dot and more digits. *)
Definition rating_pattern : Re.regex :=
  Re.Grp 1 (Re.seqs [Re.plus Re.digit; Re.Opt (Re.Lit "."); Re.star Re.digit]).

(** The rating a text holds: the first decimal number, when it lies in
    [0, 5].  [Raise] is the ValueError of [float]. *)
Definition rating_of_text (rating_text : string) : outcome (option pyfloat) :=
  match Re.search rating_pattern (Py.strip rating_text) with
  | Some m =>
      match Re.group 1 (Re.groups m) with
      | Some g =>
          match float_of_string g with
          | Some r => if in_range 0 5 r then Ok (Some r) else Ok None
          | None => Raise
          end
      | None => Raise
      end
  | None => Ok None
  end.

(** [extract_rating] *)
Definition extract_rating (page : Page) : option pyfloat :=
  let q := String dquote "" in
  let selectors :=
    [".MW4etd";
     ".ceNzKf";
     "[jsaction*=" ++ q ++ "pane.rating" ++ q ++ "]";
     ".fontDisplayLarge";
     "span.ceNzKf[aria-hidden=" ++ q ++ "true" ++ q ++ "]"] in
  try_each (fun selector =>
    element <- first_match page selector ;;
    match element with
    | None => Ok None
    | Some el =>
        rating_text <- text_content el ;;
        if Py.truthy rating_text
        then rating_of_text (Urllib.or_empty rating_text)
        else Ok None
    end) selectors.

(** The count a text holds: its first run of digits once the commas are
    removed.  [Raise] is the ValueError of [int]. *)
Definition reviews_of_text (reviews_text : string) : outcome (option Z) :=
  match Re.search (Re.Grp 1 (Re.plus Re.digit))
                  (Py.remove_char (Ascii.eqb ",") reviews_text) with
  | Some m =>
      match Re.group 1 (Re.groups m) with
      | Some g =>
          match Py.int_of_digits g with
          | Some n => Ok (Some n)
          | None => Raise
          end
      | None => Raise
      end
  | None => Ok None
  end.

(** [extract_reviews_count] *)
Definition extract_reviews_count (page : Page) : option Z :=
  let q := String dquote "" in
  let selectors :=
    [".UY7F9";
     "button[aria-label*=" ++ q ++ "reviews" ++ q ++ "]";
     "[data-value=" ++ q ++ "Reviews count" ++ q ++ "]";
     ".fontTitleSmall .UY7F9";
     "span.UY7F9"] in
  try_each (fun selector =>
    element <- first_match page selector ;;
    match element with
    | None => Ok None
    | Some el =>
        reviews_text <- text_content el ;;
        if Py.truthy reviews_text
        then reviews_of_text (Urllib.or_empty reviews_text)
        else Ok None
    end) selectors.

(** *** Coordinates *)

(** The four URL patterns of [extract_coordinates], in order:
    - [/@] lat [,] lng [,]
    - [/place/] one or more non-slashes [/@] lat [,] lng
    - [!3d] lat [!4d] lng
    - [center=] lat [,] lng
    with lat and lng the groups 1 and 2 around [Re.number]. *)
Definition url_patterns : list Re.regex :=
  [Re.seqs [Re.lits "/@"; Re.gnum 1; Re.Lit ","; Re.gnum 2; Re.Lit ","];
   Re.seqs [Re.lits "/place/";
            Re.plus (Re.Cls (fun c => negb (Ascii.eqb c "/")));
            Re.lits "/@"; Re.gnum 1; Re.Lit ","; Re.gnum 2];
   Re.seqs [Re.lits "!3d"; Re.gnum 1; Re.lits "!4d"; Re.gnum 2];
   Re.seqs [Re.lits "center="; Re.gnum 1; Re.Lit ","; Re.gnum 2]].

(** [float(lat), float(lng)]; [None] is ValueError *)
Definition parse_pair (lat lng : string) : option (pyfloat * pyfloat) :=
  match float_of_string lat, float_of_string lng with
  | Some latitude, Some longitude => Some (latitude, longitude)
  | _, _ => None
  end.

Definition valid_range (c : pyfloat * pyfloat) : bool :=
  in_range (-90) 90 (fst c) && in_range (-180) 180 (snd c).

(** [abs(latitude) > 0.001 and abs(longitude) > 0.001] *)
Definition off_origin (c : pyfloat * pyfloat) : bool :=
  lt lit_0_001 (fabs (fst c)) && lt lit_0_001 (fabs (snd c)).

(** Method 1: the first pattern that matches the address and gives a
    pair in range.  [Raise] leaves the method through its [except]. *)
Fixpoint coordinates_from_url (patterns : list Re.regex) (current_url : string)
    : outcome (option (pyfloat * pyfloat)) :=
  match patterns with
  | [] => Ok None
  | pattern :: rest =>
      match Re.search pattern current_url with
      | Some coord_match =>
          match Re.group 1 (Re.groups coord_match), Re.group 2 (Re.groups coord_match) with
          | Some lat, Some lng =>
              match parse_pair lat lng with
              | Some c => if valid_range c then Ok (Some c)
                          else coordinates_from_url rest current_url
              | None => Raise
              end
          | _, _ => Raise
          end
      | None => coordinates_from_url rest current_url
      end
  end.

(** The seven document patterns of Method 2, with [num] for a group
    around [Re.number]:
    - [null,\[null,null,] num [,] num [\]]
    - [\[] num [,] num [\]]
    - ["lat":] num [,"lng":] num
    - ["latitude":] num [,"longitude":] num
    - [center], anything (lazy), [\[] num [,] num [\]]
    - [position], anything (lazy), num [,] num
    - [coordinates], anything (lazy), [\[] num [,] num [\]] *)
Definition coord_patterns : list Re.regex :=
  let q := String dquote "" in
  [Re.seqs [Re.lits "null,[null,null,"; Re.gnum 1; Re.Lit ","; Re.gnum 2; Re.Lit "]"];
   Re.seqs [Re.Lit "["; Re.gnum 1; Re.Lit ","; Re.gnum 2; Re.Lit "]"];
   Re.seqs [Re.lits (q ++ "lat" ++ q ++ ":"); Re.gnum 1;
            Re.lits ("," ++ q ++ "lng" ++ q ++ ":"); Re.gnum 2];
   Re.seqs [Re.lits (q ++ "latitude" ++ q ++ ":"); Re.gnum 1;
            Re.lits ("," ++ q ++ "longitude" ++ q ++ ":"); Re.gnum 2];
   Re.seqs [Re.lits "center"; Re.lazy_star Re.dot; Re.Lit "[";
            Re.gnum 1; Re.Lit ","; Re.gnum 2; Re.Lit "]"];
   Re.seqs [Re.lits "position"; Re.lazy_star Re.dot;
            Re.gnum 1; Re.Lit ","; Re.gnum 2];
   Re.seqs [Re.lits "coordinates"; Re.lazy_star Re.dot; Re.Lit "[";
            Re.gnum 1; Re.Lit ","; Re.gnum 2; Re.Lit "]"]].

(** The loop over the matches of one pattern: the first pair accepted by
    [accept]; [Raise] is the ValueError that makes the caller go on with
    the next pattern. *)
Fixpoint first_accepted (accept : pyfloat * pyfloat -> bool)
    (matches : list (string * string)) : outcome (option (pyfloat * pyfloat)) :=
  match matches with
  | [] => Ok None
  | (lat, lng) :: rest =>
      match parse_pair lat lng with
      | Some c => if accept c then Ok (Some c) else first_accepted accept rest
      | None => Raise
      end
  end.

(** The loop over the patterns of a document scan. *)
Fixpoint scan_content (accept : pyfloat * pyfloat -> bool)
    (patterns : list Re.regex) (page_content : string) : option (pyfloat * pyfloat) :=
  match patterns with
  | [] => None
  | pattern :: rest =>
      match first_accepted accept (Re.findall2 pattern page_content) with
      | Ok (Some c) => Some c
      | _ => scan_content accept rest page_content
      end
  end.

(** Method 2 *)
Definition coordinates_from_content (page : Page) : outcome (option (pyfloat * pyfloat)) :=
  _ <- wait_for_timeout page ;;
  page_content <- content page ;;
  Ok (scan_content (fun c => valid_range c && off_origin c) coord_patterns page_content).

(** Method 3: the loop over the data selectors, inside one [try]. *)
Fixpoint coordinates_from_attributes (page : Page) (data_selectors : list string)
    : outcome (option (pyfloat * pyfloat)) :=
  match data_selectors with
  | [] => Ok None
  | selector :: rest =>
      element <- first_match page selector ;;
      match element with
      | None => coordinates_from_attributes page rest
      | Some el =>
          lat <- or_await (get_attribute el "data-lat") (get_attribute el "data-latitude") ;;
          lng <- or_await (get_attribute el "data-lng") (get_attribute el "data-longitude") ;;
          if Py.truthy lat && Py.truthy lng then
            match parse_pair (Urllib.or_empty lat) (Urllib.or_empty lng) with
            | Some c => if valid_range c then Ok (Some c)
                        else coordinates_from_attributes page rest
            | None => Raise
            end
          else coordinates_from_attributes page rest
      end
  end.

Definition data_selectors : list string :=
  let q := String dquote "" in
  ["[data-lat][data-lng]";
   "[data-latitude][data-longitude]";
   "[data-coords]";
   "[jsaction*=" ++ q ++ "coordinates" ++ q ++ "]"].

(** [extract_coordinates]: the three methods in order; a method that
    raises is left through its [except] and the next one runs. *)
Definition extract_coordinates (page : Page) : option (pyfloat * pyfloat) :=
  match coordinates_from_url url_patterns (url page) with
  | Ok (Some c) => Some c
  | _ =>
      match coordinates_from_content page with
      | Ok (Some c) => Some c
      | _ =>
          match coordinates_from_attributes page data_selectors with
          | Ok (Some c) => Some c
          | _ => None
          end
      end
  end.

(** *** Web site *)

Definition excluded_domains : list string :=
  ["google.com"; "gstatic.com"; "googleapis.com";
   "maps.google.com"; "youtube.com"; "facebook.com/tr"].

(** [clean_website_url]; every exception ends in [return None]. *)
Definition clean_website_url (url : string) : option string :=
  (* Handle Google redirect URLs *)
  let unwrapped :=
    if Py.contains "google.com/url?q=" url then
      match Urllib.urlsplit url with
      | None => None
      | Some parsed =>
          match Urllib.parse_qs_get "q" (Urllib.query parsed) with
          | Some (q0 :: _) => Some q0
          | _ => Some url
          end
      end
    else Some url in
  match unwrapped with
  | None => None
  | Some url =>
      (* Clean up the URL *)
      let url := Py.strip url in
      (* Add protocol if missing *)
      let url :=
        if Py.startswith url "www." then "https://" ++ url
        else if negb (Py.startswith url "http://" || Py.startswith url "https://")
        then "https://" ++ url
        else url in
      (* Basic validation *)
      match Urllib.urlsplit url with
      | None => None
      | Some parsed_url =>
          let netloc := Urllib.netloc parsed_url in
          if negb (Urllib.is_empty netloc) && Py.contains "." netloc then
            if negb (Py.contains_any excluded_domains (Py.lower netloc))
            then Some url else None
          else None
      end
  end.

(** A cleaned URL that counts as found ([if cleaned_url:]). *)
Definition found_url (cleaned_url : option string) : outcome (option string) :=
  if Py.truthy cleaned_url then Ok cleaned_url else Ok None.

(** The body of the loop of strategy 1 for one selector. *)
Definition website_probe (page : Page) (selector : string) : outcome (option string) :=
  element <- first_match page selector ;;
  match element with
  | None => Ok None
  | Some el =>
      href <- get_attribute el "href" ;;
      let from_href :=
        match href with
        | Some h => if Py.startswith h "http" then
                      (if Py.truthy (clean_website_url h) then clean_website_url h else None)
                    else None
        | None => None
        end in
      match from_href with
      | Some cleaned_url => Ok (Some cleaned_url)
      | None =>
          (* If no href, try getting text content that might be a URL *)
          text <- text_content el ;;
          match text with
          | Some t =>
              if Py.contains "http" t || Py.contains "www." t then
                let url := Py.strip t in
                let url := if negb (Py.startswith url "http")
                           then "https://" ++ Py.lstrip_chars "www." url else url in
                found_url (clean_website_url url)
              else Ok None
          | None => Ok None
          end
      end
  end.

Definition website_selectors : list string :=
  let q := String dquote "" in
  ["a[data-item-id=" ++ q ++ "authority" ++ q ++ "]";
   "a[aria-label*=" ++ q ++ "Website" ++ q ++ " i]";
   "a[data-value=" ++ q ++ "Website" ++ q ++ "]";
   "button[data-item-id=" ++ q ++ "authority" ++ q ++ "] a";
   "[data-item-id=" ++ q ++ "authority" ++ q ++ "] a[href]";
   "a[href*=" ++ q ++ "http" ++ q ++ "]:has-text(" ++ q ++ "Website" ++ q ++ ")";
   "a[jsaction*=" ++ q ++ "website" ++ q ++ "]";
   ".rogA2c a[href^=" ++ q ++ "http" ++ q ++ "]";
   "a[data-item-id=" ++ q ++ "authority" ++ q ++ "] .Io6YTe";
   ".CsEnBe a[href^=" ++ q ++ "http" ++ q ++ "]"].

Definition info_buttons : list string :=
  let q := String dquote "" in
  ["button:has-text(" ++ q ++ "Website" ++ q ++ ")";
   "[aria-label*=" ++ q ++ "website" ++ q ++ " i]";
   "button[data-value*=" ++ q ++ "website" ++ q ++ " i]";
   "button:has-text(" ++ q ++ "Visit website" ++ q ++ ")";
   ".RcCsl button"].

Definition revealed_link_selector : string :=
  "a[href^=" ++ String dquote "http" ++ String dquote "]".

(** What one round of the click loop of strategy 2 does. *)
Inductive click_round (A : Type) : Type :=
| Found (a : A)       (* return the value *)
| Break               (* leave the loop *)
| Continue.           (* next selector *)
Arguments Found {A} a.
Arguments Break {A}.
Arguments Continue {A}.

(** Strategy 2 of [extract_website]: the first button that exists is
    clicked; a link revealed by the click is cleaned.  The page the click
    leads to stays the current page, also when a later call raises. *)
Fixpoint website_by_click (page : Page) (buttons : list string) : option string * Page :=
  match buttons with
  | [] => (None, page)
  | selector :: rest =>
      match first_match page selector with
      | Ok (Some _) =>
          match click page selector with
          | Ok page' =>
              let round :=
                match wait_for_timeout page' with
                | Raise => Continue
                | Ok _ =>
                    match first_match page' revealed_link_selector with
                    | Raise => Continue
                    | Ok None => Break
                    | Ok (Some revealed_link) =>
                        match get_attribute revealed_link "href" with
                        | Raise => Continue
                        | Ok href =>
                            if Py.truthy href then
                              let cleaned_url := clean_website_url (Urllib.or_empty href) in
                              if Py.truthy cleaned_url
                              then Found (Urllib.or_empty cleaned_url) else Break
                            else Break
                        end
                    end
                end in
              match round with
              | Found cleaned_url => (Some cleaned_url, page')
              | Break => (None, page')
              | Continue => website_by_click page' rest
              end
          | Raise => website_by_click page rest
          end
      | _ => website_by_click page rest
      end
  end.

Definition alnum_dash (c : ascii) : bool :=
  Py.ascii_alpha c || Py.isdecimal c || Ascii.eqb c "-".

(** The class of the characters that are no white space, no quote and
    no angle bracket. *)
Definition url_tail_char (c : ascii) : bool :=
  negb (Py.isspace c || Ascii.eqb c dquote || Ascii.eqb c squote ||
        Ascii.eqb c "<" || Ascii.eqb c ">").

(** The host and path shared by the two patterns of strategy 3: one or
    more of [a-zA-Z0-9-], a dot, two or more letters and, optionally, a
    slash followed by characters of [url_tail_char]. *)
Definition host_and_path : Re.regex :=
  Re.seqs [Re.plus (Re.Cls alnum_dash); Re.Lit ".";
           Re.Rep true 2 (Re.Cls Py.ascii_alpha);
           Re.Opt (Re.Seq (Re.Lit "/") (Re.star (Re.Cls url_tail_char)))].

(** [http], an optional [s], [://], an optional [www.], then
    [host_and_path]; and [www.] followed by [host_and_path]. *)
Definition content_url_patterns : list Re.regex :=
  [Re.seqs [Re.lits "http"; Re.Opt (Re.Lit "s"); Re.lits "://";
            Re.Opt (Re.lits "www."); host_and_path];
   Re.seqs [Re.lits "www."; host_and_path]].

Definition content_excludes : list string :=
  ["google.com"; "gstatic.com"; "googleapis.com"; "youtube.com"; "facebook.com"].

(** The loop over the matches of one pattern of strategy 3. *)
Fixpoint website_from_matches (matches : list string) : option string :=
  match matches with
  | [] => None
  | m :: rest =>
      if negb (Py.contains_any content_excludes (Py.lower m)) then
        let m := if negb (Py.startswith m "http") then "https://" ++ m else m in
        if Py.truthy (clean_website_url m) then clean_website_url m
        else website_from_matches rest
      else website_from_matches rest
  end.

(** Strategy 3 *)
Fixpoint website_from_content (patterns : list Re.regex) (page_content : string)
    : option string :=
  match patterns with
  | [] => None
  | pattern :: rest =>
      match website_from_matches (Re.findall0 pattern page_content) with
      | Some cleaned_url => Some cleaned_url
      | None => website_from_content rest page_content
      end
  end.

(** [extract_website]: the value and the page as the clicks left it. *)
Definition extract_website (page : Page) : option string * Page :=
  match try_each (website_probe page) website_selectors with
  | Some cleaned_url => (Some cleaned_url, page)
  | None =>
      match website_by_click page info_buttons with
      | (Some cleaned_url, page') => (Some cleaned_url, page')
      | (None, page') =>
          match content page' with
          | Ok page_content => (website_from_content content_url_patterns page_content, page')
          | Raise => (None, page')
          end
      end
  end.

(** *** Image *)

Definition valid_indicators : list string :=
  ["googleusercontent.com"; "streetviewpixels"; "places"; "maps.gstatic.com";
   ".jpg"; ".jpeg"; ".png"; ".webp"].

Definition invalid_indicators : list string :=
  ["data:image"; "blob:"; "avatar"; "profile"].

Definition proper_url (url : string) : bool :=
  Py.startswith url "http://" || Py.startswith url "https://" || Py.startswith url "//".

(** [is_valid_image_url] *)
Definition is_valid_image_url (url : string) : bool :=
  if Urllib.is_empty url then false
  else if negb (proper_url url) then false
  else
    let url_lower := Py.lower url in
    let has_valid := Py.contains_any valid_indicators url_lower in
    let has_invalid := Py.contains_any invalid_indicators url_lower in
    has_valid && negb has_invalid.

(** The two size grammars removed from an image URL: [=s], digits, a
    dash, and [=w], digits, [-h], digits; each followed by anything
    (lazy) up to an ampersand or the end. *)
Definition size_s : Re.regex :=
  Re.seqs [Re.lits "=s"; Re.plus Re.digit; Re.Lit "-"; Re.lazy_star Re.dot;
           Re.Ahead (Re.Alt (Re.Lit "&") Re.Eos)].

Definition size_wh : Re.regex :=
  Re.seqs [Re.lits "=w"; Re.plus Re.digit; Re.lits "-h"; Re.plus Re.digit;
           Re.lazy_star Re.dot; Re.Ahead (Re.Alt (Re.Lit "&") Re.Eos)].

(** [=s] followed by digits *)
Definition has_size : Re.regex := Re.seqs [Re.lits "=s"; Re.plus Re.digit].

(** The protocol-relative upgrade both cleaners start with. *)
Definition with_protocol (url : string) : string :=
  if Py.startswith url "//" then "https:" ++ url else url.

(** The two [re.sub] calls both cleaners apply to a CDN address. *)
Definition strip_sizes (url : string) : string :=
  Re.sub_empty size_wh (Re.sub_empty size_s url).

Definition is_some {A : Type} (o : option A) : bool :=
  match o with Some _ => true | None => false end.

(** [clean_image_url] *)
Definition clean_image_url (url : string) : option string :=
  if Urllib.is_empty url then None
  else
    (* Handle protocol-relative URLs *)
    let url := with_protocol url in
    (* Optimize Google User Content URLs for better quality *)
    if Py.contains "googleusercontent.com" url then
      let url := strip_sizes url in
      if negb (Py.contains "=" url) then Some (url ++ "=s800")
      else if negb (is_some (Re.search has_size url)) then Some (url ++ "&s=800")
      else Some url
    else Some url.

(** The image address of an element: [data-src], else [src], when it
    passes [is_valid] and the cleaner returns a value. *)
Definition image_of_element (is_valid : string -> bool)
    (clean : string -> option string) (el : Element) : outcome (option string) :=
  img_url <- or_await (get_attribute el "data-src") (get_attribute el "src") ;;
  if Py.truthy img_url && is_valid (Urllib.or_empty img_url) then
    let cleaned_url := clean (Urllib.or_empty img_url) in
    if Py.truthy cleaned_url then Ok cleaned_url else Ok None
  else Ok None.

(** The body of the selector loop of [extract_image]. *)
Definition image_probe (is_valid : string -> bool)
    (clean : string -> option string) (page : Page) (selector : string)
    : outcome (option string) :=
  element <- first_match page selector ;;
  match element with
  | None => Ok None
  | Some el => image_of_element is_valid clean el
  end.

Definition image_selectors : list string :=
  let q := String dquote "" in
  ["img[data-src*=" ++ q ++ "googleusercontent.com" ++ q ++ "]";
   "img[src*=" ++ q ++ "googleusercontent.com" ++ q ++ "]";
   "button img[src*=" ++ q ++ "googleusercontent.com" ++ q ++ "]";
   ".ZKCDEc img";
   ".UCw5gc img";
   "[data-photo-index=" ++ q ++ "0" ++ q ++ "] img";
   "img[alt*=" ++ q ++ "Photo" ++ q ++ "]";
   ".gallery img:first-child";
   "img[src*=" ++ q ++ "streetviewpixels" ++ q ++ "]";
   "img[src*=" ++ q ++ "places" ++ q ++ "]";
   "[jsaction*=" ++ q ++ "photo" ++ q ++ "] img:first-child"].

Definition fallback_selectors : list string :=
  let q := String dquote "" in
  ["img[src*=" ++ q ++ "http" ++ q ++ "]";
   "img[data-src*=" ++ q ++ "http" ++ q ++ "]"].

(** The loop over [elements.nth(i)]. *)
Fixpoint first_image (els : list Element) : outcome (option string) :=
  match els with
  | [] => Ok None
  | el :: rest =>
      r <- image_of_element is_valid_image_url clean_image_url el ;;
      match r with
      | Some cleaned_url => Ok (Some cleaned_url)
      | None => first_image rest
      end
  end.

(** The fallback of [extract_image]: the first five matches of each
    fallback selector, inside one [try]. *)
Fixpoint image_fallback (page : Page) (selectors : list string) : outcome (option string) :=
  match selectors with
  | [] => Ok None
  | selector :: rest =>
      elements <- locator page selector ;;
      r <- first_image (List.firstn (Nat.min (List.length elements) 5) elements) ;;
      match r with
      | Some cleaned_url => Ok (Some cleaned_url)
      | None => image_fallback page rest
      end
  end.

(** [extract_image] *)
Definition extract_image (page : Page) : option string :=
  match try_each (image_probe is_valid_image_url clean_image_url page) image_selectors with
  | Some cleaned_url => Some cleaned_url
  | None =>
      match image_fallback page fallback_selectors with
      | Ok r => r
      | Raise => None
      end
  end.

(** [extract_place]: the fields in the order the program fills them.
    None of the extractors lets an exception out, so the [except] of
    [extract_place] is not reached.  The page is returned as the clicks
    of [extract_website] left it. *)
Definition extract_place (page : Page) : Place * Page :=
  let name_ := extract_name page in
  let address_ := extract_address page in
  let phone_ := extract_phone page in
  let rating_ := extract_rating page in
  let reviews_count_ := extract_reviews_count page in
  let '(website_, page) := extract_website page in
  let image_url_ := extract_image page in
  let coordinates := extract_coordinates page in
  (mkPlace name_ address_ phone_ website_ image_url_ rating_ reviews_count_
           (option_map fst coordinates) (option_map snd coordinates),
   page).

End Extractors.

(** ** [core.py] *)

Module Core.

Import Float Models.

(** *** The helpers of [GoogleMapsScraper] *)

(** [extract_coordinates_from_url]: the first pattern of the URL tier
    only; every exception ends in [return None]. *)
Definition extract_coordinates_from_url (url : string) : option (pyfloat * pyfloat) :=
  match Re.search (Re.seqs [Re.lits "/@"; Re.gnum 1; Re.Lit ","; Re.gnum 2; Re.Lit ","]) url with
  | Some coord_match =>
      match Re.group 1 (Re.groups coord_match), Re.group 2 (Re.groups coord_match) with
      | Some lat, Some lng =>
          match Extractors.parse_pair lat lng with
          | Some c => if Extractors.valid_range c then Some c else None
          | None => None
          end
      | _, _ => None
      end
  | None => None
  end.

(** The five document patterns of [extract_coordinates_advanced]; the
    fourth is [latitude], anything (lazy), a number, anything (lazy),
    [longitude], anything (lazy), a number. *)
Definition advanced_patterns : list Re.regex :=
  let q := String Extractors.dquote "" in
  [Re.seqs [Re.lits "null,[null,null,"; Re.gnum 1; Re.Lit ","; Re.gnum 2; Re.Lit "]"];
   Re.seqs [Re.Lit "["; Re.gnum 1; Re.Lit ","; Re.gnum 2; Re.Lit "]"];
   Re.seqs [Re.lits (q ++ "lat" ++ q ++ ":"); Re.gnum 1;
            Re.lits ("," ++ q ++ "lng" ++ q ++ ":"); Re.gnum 2];
   Re.seqs [Re.lits "latitude"; Re.lazy_star Re.dot; Re.gnum 1;
            Re.lazy_star Re.dot; Re.lits "longitude"; Re.lazy_star Re.dot; Re.gnum 2];
   Re.seqs [Re.lits "center"; Re.lazy_star Re.dot; Re.Lit "[";
            Re.gnum 1; Re.Lit ","; Re.gnum 2; Re.Lit "]"]].

(** [extract_coordinates_advanced] *)
Definition extract_coordinates_advanced (page : Page) : option (pyfloat * pyfloat) :=
  match content page with
  | Ok page_content =>
      Extractors.scan_content Extractors.valid_range advanced_patterns page_content
  | Raise => None
  end.

Definition advanced_website_selectors : list string :=
  let q := String Extractors.dquote "" in
  ["a[data-item-id=" ++ q ++ "authority" ++ q ++ "]";
   "a[aria-label*=" ++ q ++ "Website" ++ q ++ "]";
   "a[data-value=" ++ q ++ "Website" ++ q ++ "]";
   "button[data-item-id=" ++ q ++ "authority" ++ q ++ "]";
   "[data-item-id=" ++ q ++ "authority" ++ q ++ "] a";
   "a[href*=" ++ q ++ "http" ++ q ++ "]:has-text(" ++ q ++ "Website" ++ q ++ ")";
   "a[jsaction*=" ++ q ++ "website" ++ q ++ "]";
   ".rogA2c a[href^=" ++ q ++ "http" ++ q ++ "]"].

(** The body of the loop of strategy 1 of [extract_website_advanced]. *)
Definition advanced_website_probe (page : Page) (selector : string)
    : outcome (option string) :=
  element <- first_match page selector ;;
  match element with
  | None => Ok None
  | Some el =>
      href <- get_attribute el "href" ;;
      match href with
      | Some h =>
          if Py.startswith h "http" then
            (* Clean up Google redirect URLs *)
            if Py.contains "google.com/url?q=" h then
              match Urllib.urlsplit h with
              | None => Raise
              | Some parsed =>
                  match Urllib.parse_qs_get "q" (Urllib.query parsed) with
                  | Some (q0 :: _) => Ok (Some q0)
                  | _ => Ok (Some h)
                  end
              end
            else Ok (Some h)
          else Ok None
      | None => Ok None
      end
  end.

Definition advanced_info_buttons : list string :=
  let q := String Extractors.dquote "" in
  ["button:has-text(" ++ q ++ "Website" ++ q ++ ")";
   "[aria-label*=" ++ q ++ "website" ++ q ++ " i]";
   "button[data-value*=" ++ q ++ "website" ++ q ++ " i]"].

(** Strategy 2 of [extract_website_advanced]. *)
Fixpoint advanced_website_by_click (page : Page) (buttons : list string)
    : option string * Page :=
  match buttons with
  | [] => (None, page)
  | selector :: rest =>
      match first_match page selector with
      | Ok (Some _) =>
          match click page selector with
          | Ok page' =>
              let round :=
                match wait_for_timeout page' with
                | Raise => Extractors.Continue
                | Ok _ =>
                    match first_match page' Extractors.revealed_link_selector with
                    | Raise => Extractors.Continue
                    | Ok None => Extractors.Break
                    | Ok (Some link) =>
                        match get_attribute link "href" with
                        | Raise => Extractors.Continue
                        | Ok href =>
                            if Py.truthy href
                            then Extractors.Found (Urllib.or_empty href)
                            else Extractors.Break
                        end
                    end
                end in
              match round with
              | Extractors.Found href => (Some href, page')
              | Extractors.Break => (None, page')
              | Extractors.Continue => advanced_website_by_click page' rest
              end
          | Raise => advanced_website_by_click page rest
          end
      | _ => advanced_website_by_click page rest
      end
  end.

(** [extract_website_advanced] *)
Definition extract_website_advanced (page : Page) : option string * Page :=
  match try_each (advanced_website_probe page) advanced_website_selectors with
  | Some href => (Some href, page)
  | None => advanced_website_by_click page advanced_info_buttons
  end.

(** [GoogleMapsScraper.is_valid_image_url] *)
Definition is_valid_image_url (url : string) : bool :=
  if Urllib.is_empty url then false
  else if negb (Extractors.proper_url url) then false
  else Py.contains_any Extractors.valid_indicators (Py.lower url).

(** [GoogleMapsScraper.clean_image_url] *)
Definition clean_image_url (url : string) : option string :=
  if Urllib.is_empty url then None
  else
    (* Handle protocol-relative URLs *)
    let url := Extractors.with_protocol url in
    (* Remove unnecessary parameters for better image quality *)
    if Py.contains "googleusercontent.com" url then
      let url := Extractors.strip_sizes url in
      if negb (Py.contains "=" url) then Some (url ++ "=s1000")
      else Some (url ++ "&s=1000")
    else Some url.

Definition advanced_image_selectors : list string :=
  let q := String Extractors.dquote "" in
  ["img[data-src*=" ++ q ++ "googleusercontent.com" ++ q ++ "]";
   "img[src*=" ++ q ++ "googleusercontent.com" ++ q ++ "]";
   "button img[src*=" ++ q ++ "googleusercontent.com" ++ q ++ "]";
   ".ZKCDEc img";
   ".UCw5gc img";
   "[data-photo-index=" ++ q ++ "0" ++ q ++ "] img";
   "img[alt*=" ++ q ++ "Photo" ++ q ++ "]";
   ".gallery img";
   "img[src*=" ++ q ++ "streetviewpixels" ++ q ++ "]";
   "img[src*=" ++ q ++ "places" ++ q ++ "]";
   "[jsaction*=" ++ q ++ "photo" ++ q ++ "] img"].

Definition gallery_selectors : list string :=
  let q := String Extractors.dquote "" in
  [".section-image img";
   ".photo-container img";
   "[data-value*=" ++ q ++ "photo" ++ q ++ "] img";
   ".RZ66Rb img"].

Definition photo_buttons : list string :=
  let q := String Extractors.dquote "" in
  ["button:has-text(" ++ q ++ "Photo" ++ q ++ ")";
   "[aria-label*=" ++ q ++ "photo" ++ q ++ " i]";
   "button[data-value*=" ++ q ++ "photo" ++ q ++ " i]";
   "[jsaction*=" ++ q ++ "photo" ++ q ++ "]"].

(** Strategy 2 of [extract_image_advanced]: the first image of each
    gallery selector, inside one [try]. *)
Fixpoint image_from_gallery (page : Page) (selectors : list string)
    : outcome (option string) :=
  match selectors with
  | [] => Ok None
  | selector :: rest =>
      elements <- locator page selector ;;
      match elements with
      | first_img :: _ =>
          r <- Extractors.image_of_element is_valid_image_url clean_image_url first_img ;;
          match r with
          | Some cleaned_url => Ok (Some cleaned_url)
          | None => image_from_gallery page rest
          end
      | [] => image_from_gallery page rest
      end
  end.

Definition revealed_image_selector : string :=
  "img[src*=" ++ String Extractors.dquote "googleusercontent.com" ++ String Extractors.dquote "]".

(** Strategy 3 of [extract_image_advanced]: the first photo button that
    exists is clicked, inside one [try]; an exception leaves the loop. *)
Fixpoint image_by_click (page : Page) (buttons : list string) : option string * Page :=
  match buttons with
  | [] => (None, page)
  | selector :: rest =>
      match first_match page selector with
      | Ok (Some _) =>
          match click page selector with
          | Ok page' =>
              let found :=
                _ <- wait_for_timeout page' ;;
                revealed_img <- first_match page' revealed_image_selector ;;
                match revealed_img with
                | Some el =>
                    img_url <- get_attribute el "src" ;;
                    if Py.truthy img_url && is_valid_image_url (Urllib.or_empty img_url) then
                      let cleaned_url := clean_image_url (Urllib.or_empty img_url) in
                      if Py.truthy cleaned_url then Ok cleaned_url else Ok None
                    else Ok None
                | None => Ok None
                end in
              match found with
              | Ok r => (r, page')
              | Raise => (None, page')
              end
          | Raise => (None, page)
          end
      | Ok None => image_by_click page rest
      | Raise => (None, page)
      end
  end.

(** [extract_image_advanced] *)
Definition extract_image_advanced (page : Page) : option string * Page :=
  match try_each (Extractors.image_probe is_valid_image_url clean_image_url page)
                 advanced_image_selectors with
  | Some cleaned_url => (Some cleaned_url, page)
  | None =>
      match image_from_gallery page gallery_selectors with
      | Ok (Some cleaned_url) => (Some cleaned_url, page)
      | _ => image_by_click page photo_buttons
      end
  end.

(** *** The browser of a run *)

(** What the browser answers during one run, at each place of the
    control flow where the program awaits it. *)
Record World : Type := mkWorld {
  (* BrowserManager.start *)
  playwright_start : outcome unit;
  launch : outcome unit;
  new_context : outcome unit;
  add_init_script : outcome unit;
  (* BrowserManager.new_page, page.close *)
  context_new_page : outcome unit;
  set_extra_http_headers : outcome unit;
  page_close : outcome unit;
  (* BrowserManager.close *)
  context_close : outcome unit;
  browser_close : outcome unit;
  playwright_stop : outcome unit;
  (* navigation and search *)
  goto : outcome unit;
  fill : string -> outcome unit;
  press_enter : outcome unit;
  wait_for_selector : outcome unit;        (* [Raise] is the timeout *)
  (* the result list, at scroll attempt [k] (counted from 0) *)
  mouse_wheel : nat -> outcome unit;
  listings_count : nat -> outcome nat;
  sidebar_count : nat -> outcome nat;
  scroll_into_view : nat -> outcome unit;
  sidebar_wheel : nat -> outcome unit;
  (* the result list after scrolling *)
  final_count : outcome nat;
  all_listings : outcome nat;              (* len(await listings_locator.all()) *)
  (* candidate [idx], click attempt [a]: the detail page it opens *)
  listing_click : nat -> nat -> outcome Page
}.

(** The browser calls a run leaves a trace of. *)
Inductive event : Type :=
| Wheel (dy : Z)            (* page.mouse.wheel(0, dy) *)
| QuerySidebar              (* sidebar.count() *)
| ScrollIntoView            (* sidebar.scroll_into_view_if_needed() *)
| Click (idx : nat)         (* listing.click() *)
| ClosePage
| CloseContext
| CloseBrowser
| StopPlaywright.

(** The fields of [BrowserManager] that are set. *)
Record Manager : Type := mkManager {
  has_playwright : bool;
  has_browser : bool;
  has_context : bool
}.

(** The mutable state of a run: the list [places], the trace and the
    browser manager. *)
Record run_state : Type := mkState {
  places : list Place;
  trace : list event;
  manager : Manager
}.

(** A step of the run: it returns or raises, and leaves a state. *)
Definition M (A : Type) : Type := run_state -> outcome A * run_state.

Definition ret {A : Type} (a : A) : M A := fun s => (Ok a, s).

Definition mbind {A B : Type} (m : M A) (k : A -> M B) : M B :=
  fun s => match m s with
           | (Ok a, s') => k a s'
           | (Raise, s') => (Raise, s')
           end.

Notation "x <~ m ;; k" := (mbind m (fun x => k))
  (at level 61, m at next level, right associativity).

(** An awaited browser call. *)
Definition await {A : Type} (o : outcome A) : M A := fun s => (o, s).

(** An awaited browser call that leaves [e] in the trace. *)
Definition call {A : Type} (e : event) (o : outcome A) : M A :=
  fun s => (o, mkState (places s) (trace s ++ [e]) (manager s)).

Definition get_places : M (list Place) := fun s => (Ok (places s), s).

Definition append_place (p : Place) : M unit :=
  fun s => (Ok tt, mkState (places s ++ [p]) (trace s) (manager s)).

Definition get_manager : M Manager := fun s => (Ok (manager s), s).

Definition set_manager (m : Manager) : M unit :=
  fun s => (Ok tt, mkState (places s) (trace s) m).

(** [try: m except Exception: handler] *)
Definition try_except {A : Type} (m : M A) (handler : M A) : M A :=
  fun s => match m s with
           | (Ok a, s') => (Ok a, s')
           | (Raise, s') => handler s'
           end.

(** [try: m finally: f] *)
Definition try_finally {A : Type} (m : M A) (f : M unit) : M A :=
  fun s => let '(r, s') := m s in
           match f s' with
           | (Ok _, s'') => (r, s'')
           | (Raise, s'') => (Raise, s'')
           end.

(** [BrowserManager.start] *)
Definition start (w : World) : M unit :=
  _ <~ await (playwright_start w) ;;
  _ <~ set_manager (mkManager true false false) ;;
  _ <~ await (launch w) ;;
  _ <~ set_manager (mkManager true true false) ;;
  _ <~ await (new_context w) ;;
  _ <~ set_manager (mkManager true true true) ;;
  await (add_init_script w).

(** [BrowserManager.close] *)
Definition close (w : World) : M unit :=
  mgr <~ get_manager ;;
  _ <~ (if has_context mgr then call CloseContext (context_close w) else ret tt) ;;
  _ <~ (if has_browser mgr then call CloseBrowser (browser_close w) else ret tt) ;;
  if has_playwright mgr then call StopPlaywright (playwright_stop w) else ret tt.

(** [BrowserManager.new_page] *)
Definition new_page (w : World) : M unit :=
  _ <~ await (context_new_page w) ;;
  await (set_extra_http_headers w).

(** [async with self.browser_manager.get_page() as page: body] *)
Definition with_page {A : Type} (w : World) (body : M A) : M A :=
  _ <~ new_page w ;;
  try_finally body (call ClosePage (page_close w)).

(** *** The scroll loop *)

Definition max_scroll_attempts : nat := 30.

(** The corrective action of the scroll loop, inside [try ... except:
    pass]. *)
Definition scroll_sidebar (w : World) (k : nat) : M unit :=
  try_except
    (n <~ call QuerySidebar (sidebar_count w k) ;;
     if (0 <? n)%nat then
       _ <~ call ScrollIntoView (scroll_into_view w k) ;;
       call (Wheel 10000) (sidebar_wheel w k)
     else ret tt)
    (ret tt).

(** The [while scroll_attempts < max_scroll_attempts] loop;
    [remaining] is [max_scroll_attempts - scroll_attempts].  It returns
    the final [scroll_attempts] and [no_new_results_count]. *)
Fixpoint scroll_loop (w : World) (total : Z) (remaining : nat)
    (scroll_attempts previously_counted no_new_results_count : nat) : M (nat * nat) :=
  match remaining with
  | O => ret (scroll_attempts, no_new_results_count)
  | S remaining' =>
      _ <~ call (Wheel 15000) (mouse_wheel w scroll_attempts) ;;
      found <~ await (listings_count w scroll_attempts) ;;
      if (total <=? Z.of_nat found)%Z then ret (scroll_attempts, no_new_results_count)
      else if (found =? previously_counted)%nat then
        let no_new_results_count := S no_new_results_count in
        _ <~ (if (no_new_results_count =? 2)%nat
              then scroll_sidebar w scroll_attempts else ret tt) ;;
        if (5 <=? no_new_results_count)%nat
        then ret (scroll_attempts, no_new_results_count)
        else scroll_loop w total remaining' (S scroll_attempts) found no_new_results_count
      else scroll_loop w total remaining' (S scroll_attempts) found 0
  end.

(** [int(total * buffer_multiplier)] with [buffer_multiplier = 1.5];
    [None] is OverflowError. *)
Definition buffered (total : Z) : option Z :=
  match of_int_rounded total with
  | Some x => to_int (mul_1_5 x)
  | None => None
  end.

(** The length of [l[:n]] for a list of length [len]. *)
Definition slice_length (n : Z) (len : nat) : nat :=
  if (0 <=? n)%Z then Nat.min (Z.to_nat n) len
  else len - Z.to_nat (- n).

(** *** One candidate *)

Definition max_click_attempts : nat := 3.

(** The click loop: up to [attempts] clicks, each inside its own [try];
    the first that succeeds gives the detail page. *)
Fixpoint click_listing (w : World) (idx : nat) (attempts click_attempt : nat)
    : M (option Page) :=
  match attempts with
  | O => ret None
  | S attempts' =>
      clicked <~ try_except
                   (page <~ call (Click idx) (listing_click w idx click_attempt) ;;
                    ret (Some page))
                   (ret None) ;;
      match clicked with
      | Some page => ret (Some page)
      | None => click_listing w idx attempts' (S click_attempt)
      end
  end.

Definition set_coordinates (place : Place) (c : pyfloat * pyfloat) : Place :=
  mkPlace (name place) (address place) (phone place) (website place)
          (image_url place) (rating place) (reviews_count place)
          (Some (fst c)) (Some (snd c)).

Definition set_website (place : Place) (w : string) : Place :=
  mkPlace (name place) (address place) (phone place) (Some w)
          (image_url place) (rating place) (reviews_count place)
          (latitude place) (longitude place).

Definition set_image_url (place : Place) (u : string) : Place :=
  mkPlace (name place) (address place) (phone place) (website place)
          (Some u) (rating place) (reviews_count place)
          (latitude place) (longitude place).

(** What the program does with the detail page of a candidate, up to the
    validation of the name: the record it has built. *)
Definition visit (page : Page) : Place :=
  (* EXTRACT COORDINATES FROM URL FIRST *)
  let current_url := url page in
  let coordinates := extract_coordinates_from_url current_url in
  (* Extract basic place data *)
  let '(place, page) := Extractors.extract_place page in
  (* Override coordinates if we got them from URL *)
  let place := match coordinates with
               | Some c => set_coordinates place c
               | None => place
               end in
  (* Try additional coordinate extraction if still missing *)
  let place :=
    if negb (has_coordinates place) then
      match extract_coordinates_advanced page with
      | Some c => set_coordinates place c
      | None => place
      end
    else place in
  (* Try additional website extraction if missing *)
  let '(place, page) :=
    if negb (Py.truthy (website place)) then
      match extract_website_advanced page with
      | (Some w, page') => if Py.truthy (Some w) then (set_website place w, page')
                           else (place, page')
      | (None, page') => (place, page')
      end
    else (place, page) in
  (* Try additional image extraction if missing *)
  let place :=
    if negb (Py.truthy (image_url place)) then
      match extract_image_advanced page with
      | (Some u, _) => if Py.truthy (Some u) then set_image_url place u else place
      | (None, _) => place
      end
    else place in
  place.

(** [not place.name or place.name in ["", "Unknown", "Failed to extract"]] *)
Definition invalid_name (place : Place) : bool :=
  negb (Py.truthy (name place)) ||
  match name place with
  | Some n => String.eqb n "" || String.eqb n "Unknown" || String.eqb n "Failed to extract"
  | None => false
  end.

(** The body of the loop over the listings for candidate [idx], with its
    [try ... except Exception: continue]. *)
Definition process_listing (w : World) (idx : nat) : M unit :=
  try_except
    (clicked <~ click_listing w idx max_click_attempts 0 ;;
     match clicked with
     | None => ret tt
     | Some page =>
         _ <~ await (wait_for_timeout page) ;;
         _ <~ await (wait_for_timeout page) ;;
         let place := visit page in
         if invalid_name place then ret tt
         else append_place place
     end)
    (ret tt).

(** The loop over the listings. *)
Fixpoint process_listings (w : World) (total : Z) (listings : list nat) : M unit :=
  match listings with
  | [] => ret tt
  | idx :: rest =>
      ps <~ get_places ;;
      if (total <=? Z.of_nat (List.length ps))%Z then ret tt
      else
        _ <~ process_listing w idx ;;
        process_listings w total rest
  end.

(** The body of [async with ... as page] in [scrape_places]. *)
Definition session (w : World) (search_for : string) (total : Z) : M unit :=
  _ <~ await (goto w) ;;
  (* Search query *)
  _ <~ await (fill w search_for) ;;
  _ <~ await (press_enter w) ;;
  (* Wait for results *)
  loaded <~ try_except (_ <~ await (wait_for_selector w) ;; ret true) (ret false) ;;
  if negb loaded then ret tt                        (* return places *)
  else
    _ <~ scroll_loop w total max_scroll_attempts 0 0 0 ;;
    (* Get listings *)
    match buffered total with
    | None => await Raise
    | Some b =>
        n <~ await (final_count w) ;;
        let target_raw_listings := Z.min b (Z.of_nat n) in
        raw_listings <~ await (all_listings w) ;;
        let listings := List.seq 0 (slice_length target_raw_listings raw_listings) in
        (* Process each place *)
        process_listings w total listings
    end.

(** The body of [GoogleMapsScraper.scrape_places]. *)
Definition scrape (w : World) (search_for : string) (total : Z) : M (list Place) :=
  _ <~ try_finally
         (try_except (_ <~ start w ;; with_page w (session w search_for total))
                     (ret tt))
         (close w) ;;
  get_places.

Definition initial : run_state := mkState [] [] (mkManager false false false).

(** [GoogleMapsScraper.scrape_places] on a fresh scraper: the result,
    [Raise] when an exception leaves the function, and the final state
    of the run. *)
Definition run (w : World) (search_for : string) (total : Z)
    : outcome (list Place) * run_state :=
  scrape w search_for total initial.

Definition scrape_places (w : World) (search_for : string) (total : Z)
    : outcome (list Place) :=
  fst (run w search_for total).

End Core.

(** ** [utils.py] *)

Module Utils.

Import Float Models.

(** The dictionary [validate_place_data] returns. *)
Record validation : Type := mkValidation {
  valid : bool;
  issues : list string
}.

Definition invalid (v : validation) (issue : string) : validation :=
  mkValidation false (issues v ++ [issue]).

(** [validate_place_data] *)
Definition validate_place_data (place : Place) : validation :=
  let v := mkValidation true [] in
  (* Check required fields *)
  let v :=
    if negb (Py.truthy (name place)) ||
       String.eqb (Py.strip (Urllib.or_empty (name place))) ""
    then invalid v "Missing or empty name" else v in
  (* Check coordinates if present *)
  let v :=
    if Extractors.is_some (latitude place) || Extractors.is_some (longitude place) then
      if negb (has_coordinates place) then invalid v "Invalid coordinates" else v
    else v in
  (* Check rating if present *)
  let v :=
    match rating place with
    | Some r => if negb (in_range 0 5 r) then invalid v "Invalid rating (must be 0-5)" else v
    | None => v
    end in
  (* Check website URL format if present *)
  let v :=
    if Py.truthy (website place) then
      if negb (Py.startswith (Urllib.or_empty (website place)) "http://" ||
               Py.startswith (Urllib.or_empty (website place)) "https://")
      then mkValidation (valid v) (issues v ++ ["Website URL missing protocol"])
      else v
    else v in
  v.

(** [filter_valid_places] *)
Definition filter_valid_places (places : list Place) : list Place :=
  List.filter (fun place => valid (validate_place_data place)) places.

End Utils.

(** ** The properties as the specification words them *)

Module Spec.

Import Float Models.

(** A finite number between two integers. *)
Definition within (lo hi : Z) (x : pyfloat) : Prop :=
  exists q, x = Finite q /\ (inject_Z lo <= q)%Q /\ (q <= inject_Z hi)%Q.

(** A finite number further than 0.001 from zero. *)
Definition off_zero (x : pyfloat) : Prop :=
  exists q, x = Finite q /\ (1 # 1000 < Qabs q)%Q.

(** [has_coordinates] as the specification states it: both values set,
    each in its range, and the pair not exactly (0, 0). *)
Definition has_coordinates_spec (p : Place) : bool :=
  match latitude p, longitude p with
  | Some lat, Some lng =>
      in_range (-90) 90 lat && in_range (-180) 180 lng &&
      negb (le lat zero && le zero lat && le lng zero && le zero lng)
  | _, _ => false
  end.

(** The three tiers of the coordinate resolver and the second-pass scan. *)
Inductive tier : Type := UrlTier | ContentTier | AttributeTier | AdvancedScan.

Definition tier_result (t : tier) (page : Page) : outcome (option (pyfloat * pyfloat)) :=
  match t with
  | UrlTier => Extractors.coordinates_from_url Extractors.url_patterns (url page)
  | ContentTier => Extractors.coordinates_from_content page
  | AttributeTier => Extractors.coordinates_from_attributes page Extractors.data_selectors
  | AdvancedScan => Ok (Core.extract_coordinates_advanced page)
  end.

(** The state [s] after the browser calls [es]. *)
Definition logged (s : Core.run_state) (es : list Core.event) : Core.run_state :=
  Core.mkState (Core.places s) (Core.trace s ++ es) (Core.manager s).

(** The scroll gestures of the scroll loop in a trace. *)
Definition main_scrolls (t : list Core.event) : nat :=
  List.length (filter (fun e => match e with
                                | Core.Wheel dy => (dy =? 15000)%Z
                                | _ => false
                                end) t).

(** A step that changes the list of places only as [P] allows. *)
Definition keeps {A : Type} (P : list Place -> list Place -> Prop) (m : Core.M A) : Prop :=
  forall s, P (Core.places s) (Core.places (snd (m s))).

(** The list of places is left as it is. *)
Definition same (l l' : list Place) : Prop := l' = l.

(** A record the orchestrator built from a detail page and accepted. *)
Definition produced (p : Place) : Prop :=
  Core.invalid_name p = false /\ exists page, p = Core.visit page.

(** Accepted records are appended, and the list does not grow past
    [total] unless it was longer before. *)
Definition grows (total : Z) (l l' : list Place) : Prop :=
  exists added, l' = (l ++ added)%list /\
                Forall produced added /\
                (Z.of_nat (List.length l') <= Z.max total (Z.of_nat (List.length l)))%Z.

(** A name the orchestrator accepts. *)
Definition accepted_name (p : Place) : Prop :=
  exists n, name p = Some n /\ n <> "" /\ n <> "Unknown" /\ n <> "Failed to extract".

(** The detail page candidate [idx] opens: the page of its first click
    that succeeds, among three. *)
Definition opened (w : Core.World) (idx : nat) : option Page :=
  match Core.listing_click w idx 0 with
  | Ok page => Some page
  | Raise =>
      match Core.listing_click w idx 1 with
      | Ok page => Some page
      | Raise =>
          match Core.listing_click w idx 2 with
          | Ok page => Some page
          | Raise => None
          end
      end
  end.

(** The record candidate [idx] yields, if any: its page opens, the wait
    for the details returns and the name is valid. *)
Definition yield (w : Core.World) (idx : nat) : list Place :=
  match opened w idx with
  | Some page =>
      match wait_for_timeout page with
      | Ok _ => if Core.invalid_name (Core.visit page) then [] else [Core.visit page]
      | Raise => []
      end
  | None => []
  end.

(** A step that leaves a component of the state as it is. *)
Definition preserves {A X : Type} (f : Core.run_state -> X) (m : Core.M A) : Prop :=
  forall s, f (snd (m s)) = f s.

(** A URL that starts with a protocol. *)
Definition absolute (url : string) : bool :=
  Py.startswith url "http://" || Py.startswith url "https://".

(** The first and the last character of a text. *)
Definition first_char (t : string) : option ascii :=
  match t with
  | String c _ => Some c
  | EmptyString => None
  end.

Fixpoint last_char (t : string) : option ascii :=
  match t with
  | EmptyString => None
  | String c EmptyString => Some c
  | String _ t' => last_char t'
  end.

(** A text that is not empty and has no white space at either end. *)
Definition trimmed (t : string) : Prop :=
  exists a b, first_char t = Some a /\ last_char t = Some b /\
              Py.isspace a = false /\ Py.isspace b = false.

(** The size parameter each pass appends to a CDN address [base] whose
    size restrictions were removed, as the amended C5 words it: the
    first pass [=s800] when no [=] remains, [&s=800] when [=] remains
    but no [=s] followed by digits, and nothing otherwise; the second
    pass [=s1000] when no [=] remains and [&s=1000] otherwise. *)
Definition first_pass_size (base : string) : string :=
  if Py.contains "=" base then
    match Re.search Extractors.has_size base with
    | Some _ => ""
    | None => "&s=800"
    end
  else "=s800".

Definition second_pass_size (base : string) : string :=
  if Py.contains "=" base then "&s=1000" else "=s1000".

(** The browser calls of the corrective action at scroll attempt [k]:
    the side bar is queried; when it is there it is scrolled into view
    and, when that returns, wheeled once by 10000. *)
Definition corrective (w : Core.World) (k : nat) : list Core.event :=
  Core.QuerySidebar ::
  match Core.sidebar_count w k with
  | Ok (S _) =>
      Core.ScrollIntoView ::
      match Core.scroll_into_view w k with
      | Ok _ => [Core.Wheel 10000]
      | Raise => []
      end
  | _ => []
  end.

(** The body of the [try] block of [scrape_places]. *)
Definition guarded (w : Core.World) (search_for : string) (total : Z) : Core.M unit :=
  Core.mbind (Core.start w)
             (fun _ => Core.with_page w (Core.session w search_for total)).

(** The records gathered when that body ends, by returning or by
    raising. *)
Definition gathered (w : Core.World) (search_for : string) (total : Z) : list Place :=
  Core.places (snd (guarded w search_for total Core.initial)).

(** The network location of [url] holds one of the excluded domains. *)
Definition on_denylist (url : string) : bool :=
  match Urllib.urlsplit url with
  | Some r => Py.contains_any Extractors.excluded_domains (Py.lower (Urllib.netloc r))
  | None => false
  end.

End Spec.

(** ** Concrete pages and runs *)

Module Examples.

Import Float Models.

Definition origin_place : Place :=
  mkPlace (Some "Null Island") None None None None None None (Some zero) (Some zero).

(** An element with a text and a list of attributes. *)
Definition element (text : option string) (attrs : list (string * string)) : Element :=
  mkElement (Ok text)
    (fun a => Ok (option_map snd (List.find (fun kv => String.eqb (fst kv) a) attrs))).

(** A page with an address, a document and the matches of some
    selectors; nothing on it can be clicked. *)
Definition static_page (address document : string)
    (matches : list (string * list Element)) : Page :=
  mkPage address (Ok document)
    (fun sel => match List.find (fun kv => String.eqb (fst kv) sel) matches with
                | Some kv => Ok (snd kv)
                | None => Ok []
                end)
    (Ok tt)
    (fun _ => Raise).

(** A run in which every browser call succeeds: [n] results are
    rendered from the first scroll on, and candidate [idx] opens
    [detail idx] at the first click. *)
Definition smooth_world (n : nat) (detail : nat -> Page) : Core.World :=
  Core.mkWorld (Ok tt) (Ok tt) (Ok tt) (Ok tt)
               (Ok tt) (Ok tt) (Ok tt)
               (Ok tt) (Ok tt) (Ok tt)
               (Ok tt) (fun _ => Ok tt) (Ok tt) (Ok tt)
               (fun _ => Ok tt) (fun _ => Ok n) (fun _ => Ok 1) (fun _ => Ok tt) (fun _ => Ok tt)
               (Ok n) (Ok n)
               (fun idx _ => Ok (detail idx)).

Definition q : string := String Extractors.dquote "".

(** A detail page whose title is "Acme Sod" and whose web site button
    links to the platform itself. *)
Definition platform_link_page : Page :=
  static_page "https://www.google.com/maps/place/Acme+Sod/@35.5,-97.5,15z" ""
    [("h1", [element (Some "Acme Sod") []]);
     ("a[data-item-id=" ++ q ++ "authority" ++ q ++ "]",
      [element (Some "Website") [("href", "https://www.google.com/maps/contrib/1")]])].

(** A detail page at the address of the origin. *)
Definition origin_url_page : Page :=
  static_page "https://www.google.com/maps/place/Null+Island/@0,0,15z" "" [].

(** A detail page with both coordinates in its document, off the origin. *)
Definition content_page : Page :=
  static_page "https://www.google.com/maps/place/Acme" "x=[35.5,-97.5];" [].

(** A detail page whose only image is a user avatar on the image CDN. *)
Definition avatar_page : Page :=
  static_page "https://www.google.com/maps/place/Acme" ""
    [("img[src*=" ++ q ++ "googleusercontent.com" ++ q ++ "]",
      [element None [("src", "https://lh3.googleusercontent.com/a/avatar-photo")]])].

(** A detail page with a title and nothing else. *)
Definition titled_page (title : string) : Page :=
  static_page "https://www.google.com/maps/place/X" ""
    [("h1", [element (Some title) []])].

(** The results never load and the browser context fails to close. *)
Definition timeout_and_failing_close : Core.World :=
  Core.mkWorld (Ok tt) (Ok tt) (Ok tt) (Ok tt)
               (Ok tt) (Ok tt) (Ok tt)
               Raise (Ok tt) (Ok tt)
               (Ok tt) (fun _ => Ok tt) (Ok tt) Raise
               (fun _ => Ok tt) (fun _ => Ok 0) (fun _ => Ok 0) (fun _ => Ok tt) (fun _ => Ok tt)
               (Ok 0) (Ok 0)
               (fun _ _ => Raise).

(** Every browser call succeeds but the closing of the page, which
    raises once the candidates are processed. *)
Definition failing_page_close (n : nat) (detail : nat -> Page) : Core.World :=
  Core.mkWorld (Ok tt) (Ok tt) (Ok tt) (Ok tt)
               (Ok tt) (Ok tt) Raise
               (Ok tt) (Ok tt) (Ok tt)
               (Ok tt) (fun _ => Ok tt) (Ok tt) (Ok tt)
               (fun _ => Ok tt) (fun _ => Ok n) (fun _ => Ok 1) (fun _ => Ok tt) (fun _ => Ok tt)
               (Ok n) (Ok n)
               (fun idx _ => Ok (detail idx)).

(** The results never load; the browser closes. *)
Definition timeout_world : Core.World :=
  Core.mkWorld (Ok tt) (Ok tt) (Ok tt) (Ok tt)
               (Ok tt) (Ok tt) (Ok tt)
               (Ok tt) (Ok tt) (Ok tt)
               (Ok tt) (fun _ => Ok tt) (Ok tt) Raise
               (fun _ => Ok tt) (fun _ => Ok 0) (fun _ => Ok 0) (fun _ => Ok tt) (fun _ => Ok tt)
               (Ok 0) (Ok 0)
               (fun _ _ => Raise).

End Examples.

(** * Properties *)

Import Float Models.

(** ** Floats *)

Lemma in_range_within lo hi x : in_range lo hi x = true <-> Spec.within lo hi x.
Proof.
  unfold in_range, Spec.within, of_int. split.
  - destruct x as [q| |]; simpl; try discriminate.
    + intros H. apply andb_true_iff in H as [H1 H2].
      exists q. repeat split; now apply Qle_bool_iff.
    + destruct negative; discriminate.
  - intros (q & -> & H1 & H2). simpl.
    apply andb_true_iff. split; now apply Qle_bool_iff.
Qed.

(** ** [models.py] *)

(** C1, as stated, fails: a record whose coordinates are exactly (0, 0)
    has coordinates for [Place.has_coordinates], while the specification
    counts it as unset. *)
Lemma C1_origin_counts_as_coordinates :
  has_coordinates Examples.origin_place = true /\
  Spec.has_coordinates_spec Examples.origin_place = false.
Proof. split; reflexivity. Qed.

(** C1, amended: [Place.has_coordinates] holds if and only if latitude
    and longitude are both set, the latitude is a finite number in
    [-90, 90] and the longitude a finite number in [-180, 180]; the pair
    (0, 0) is no exception. *)
Theorem C1_has_coordinates_iff_set_and_in_range (p : Place) :
  has_coordinates p = true <->
  exists lat lng, latitude p = Some lat /\ longitude p = Some lng /\
                  Spec.within (-90) 90 lat /\ Spec.within (-180) 180 lng.
Proof.
  unfold has_coordinates. split.
  - destruct (latitude p) as [lat|]; [|discriminate].
    destruct (longitude p) as [lng|]; [|discriminate].
    intros H. apply andb_true_iff in H as [H1 H2].
    exists lat, lng. repeat split; now apply in_range_within.
  - intros (lat & lng & -> & -> & H1 & H2).
    apply andb_true_iff. split; now apply in_range_within.
Qed.

(** ** Strings *)

Lemma startswith_head s c p :
  Py.startswith s (String c p) = true -> exists s', s = String c s'.
Proof.
  destruct s as [|b s']; simpl; [discriminate|].
  intros H. apply andb_true_iff in H as [H _].
  apply Ascii.eqb_eq in H. subst. now exists s'.
Qed.

Lemma rstrip_by_idem p s : Py.rstrip_by p (Py.rstrip_by p s) = Py.rstrip_by p s.
Proof.
  induction s as [|c s IH]; simpl; [reflexivity|].
  destruct (Py.rstrip_by p s) as [|d r] eqn:E.
  - destruct (p c) eqn:Pc; simpl; [reflexivity|]. now rewrite Pc.
  - simpl in *. now rewrite IH.
Qed.

Lemma rstrip_by_keeps_head p c s :
  p c = false -> exists r, Py.rstrip_by p (String c s) = String c r.
Proof.
  intros Pc. simpl. destruct (Py.rstrip_by p s) as [|d r].
  - rewrite Pc. now exists "".
  - now exists (String d r).
Qed.

Lemma lstrip_by_head p c s : p c = false -> Py.lstrip_by p (String c s) = String c s.
Proof. intros Pc. simpl. now rewrite Pc. Qed.

Lemma lstrip_by_result p s :
  Py.lstrip_by p s = "" \/ exists c r, Py.lstrip_by p s = String c r /\ p c = false.
Proof.
  induction s as [|c s IH]; simpl; [now left|].
  destruct (p c) eqn:Pc; [exact IH|]. right. now exists c, s.
Qed.

(** A stripped string stays as it is when stripped again. *)
Lemma strip_idem s : Py.strip (Py.strip s) = Py.strip s.
Proof.
  unfold Py.strip.
  destruct (lstrip_by_result Py.isspace s) as [E | (c & r & E & Pc)]; rewrite E.
  - reflexivity.
  - destruct (rstrip_by_keeps_head Py.isspace c r Pc) as [r' E'].
    rewrite E'. rewrite lstrip_by_head by exact Pc.
    rewrite <- E'. apply rstrip_by_idem.
Qed.




(** ** [clean_website_url] *)





(** ** The coordinate resolver *)

Lemma valid_range_within c :
  Extractors.valid_range c = true ->
  Spec.within (-90) 90 (fst c) /\ Spec.within (-180) 180 (snd c).
Proof.
  unfold Extractors.valid_range. intros H.
  apply andb_true_iff in H as [H1 H2].
  split; now apply in_range_within.
Qed.

Lemma lit_0_001_value :
  lit_0_001 = Finite (1152921504606847 # 1152921504606846976).
Proof. vm_compute. reflexivity. Qed.

Lemma beyond_literal_off_zero lo hi x :
  Spec.within lo hi x -> lt lit_0_001 (fabs x) = true -> Spec.off_zero x.
Proof.
  intros (q & -> & _) H. exists q. split; [reflexivity|].
  rewrite lit_0_001_value in H. simpl in H.
  apply negb_true_iff in H.
  destruct (Qlt_le_dec (1152921504606847 # 1152921504606846976) (Qabs q)) as [L|L].
  - eapply Qlt_trans; [|exact L]. reflexivity.
  - apply Qle_bool_iff in L. congruence.
Qed.

Lemma coordinates_from_url_valid patterns u c :
  Extractors.coordinates_from_url patterns u = Ok (Some c) ->
  Extractors.valid_range c = true.
Proof.
  induction patterns as [|pattern rest IH]; simpl; [discriminate|].
  destruct (Re.search pattern u) as [m|]; [|exact IH].
  destruct (Re.group 1 (Re.groups m)); [|discriminate].
  destruct (Re.group 2 (Re.groups m)); [|discriminate].
  destruct (Extractors.parse_pair _ _) as [c'|]; [|discriminate].
  destruct (Extractors.valid_range c') eqn:E; [|exact IH].
  intros [= <-]. exact E.
Qed.

Lemma first_accepted_accepts accept matches c :
  Extractors.first_accepted accept matches = Ok (Some c) -> accept c = true.
Proof.
  induction matches as [|[lat lng] rest IH]; simpl; [discriminate|].
  destruct (Extractors.parse_pair lat lng) as [c'|]; [|discriminate].
  destruct (accept c') eqn:E; [|exact IH].
  intros [= <-]. exact E.
Qed.

Lemma scan_content_accepts accept patterns document c :
  Extractors.scan_content accept patterns document = Some c -> accept c = true.
Proof.
  induction patterns as [|pattern rest IH]; simpl; [discriminate|].
  destruct (Extractors.first_accepted accept _) as [[c'|]|] eqn:E; try exact IH.
  intros [= <-]. now apply first_accepted_accepts in E.
Qed.

Lemma coordinates_from_content_valid page c :
  Extractors.coordinates_from_content page = Ok (Some c) ->
  Extractors.valid_range c = true /\ Extractors.off_origin c = true.
Proof.
  unfold Extractors.coordinates_from_content, bind.
  destruct (wait_for_timeout page); [|discriminate].
  destruct (content page) as [document|]; [|discriminate].
  intros H. apply andb_true_iff.
  apply (scan_content_accepts
           (fun c => Extractors.valid_range c && Extractors.off_origin c)
           Extractors.coord_patterns document).
  congruence.
Qed.

Lemma coordinates_from_attributes_valid page selectors c :
  Extractors.coordinates_from_attributes page selectors = Ok (Some c) ->
  Extractors.valid_range c = true.
Proof.
  induction selectors as [|selector rest IH]; simpl; [discriminate|].
  unfold bind. destruct (first_match page selector) as [[el|]|]; try discriminate; [|exact IH].
  destruct (or_await _ _) as [lat|]; [|discriminate].
  destruct (or_await _ _) as [lng|]; [|discriminate].
  destruct (Py.truthy lat && Py.truthy lng); [|exact IH].
  destruct (Extractors.parse_pair _ _) as [c'|]; [|discriminate].
  destruct (Extractors.valid_range c') eqn:E; [|exact IH].
  intros [= <-]. exact E.
Qed.

(** C3, as stated, fails: the URL tier accepts the pair (0, 0) that the
    address of the page carries; it validates the range only. *)
Lemma C3_url_tier_returns_origin :
  Spec.tier_result Spec.UrlTier Examples.origin_url_page = Ok (Some (zero, zero)) /\
  Extractors.extract_coordinates Examples.origin_url_page = Some (zero, zero) /\
  Extractors.off_origin (zero, zero) = false.
Proof. repeat split; vm_compute; reflexivity. Qed.

(** C3, amended: every tier of the coordinate resolver (URL patterns,
    document scan, data attributes) and the document scan of the second
    pass accept a pair only when the latitude is in [-90, 90] and the
    longitude in [-180, 180]; the document scan of [extract_coordinates]
    accepts it only when, besides, both values are further than 0.001
    from zero. *)
Theorem C3_every_tier_validates_range (t : Spec.tier) (page : Page) (c : pyfloat * pyfloat) :
  Spec.tier_result t page = Ok (Some c) ->
  Spec.within (-90) 90 (fst c) /\ Spec.within (-180) 180 (snd c) /\
  (t = Spec.ContentTier -> Spec.off_zero (fst c) /\ Spec.off_zero (snd c)).
Proof.
  intros H.
  assert (V : Extractors.valid_range c = true).
  { destruct t; unfold Spec.tier_result in H.
    - now apply coordinates_from_url_valid in H.
    - now apply coordinates_from_content_valid in H.
    - now apply coordinates_from_attributes_valid in H.
    - unfold Core.extract_coordinates_advanced in H.
      destruct (content page) as [document|]; [|discriminate].
      apply (scan_content_accepts Extractors.valid_range Core.advanced_patterns document).
      congruence. }
  destruct (valid_range_within c V) as [W1 W2].
  split; [exact W1|]. split; [exact W2|].
  intros ->. unfold Spec.tier_result in H.
  apply coordinates_from_content_valid in H as [_ O].
  unfold Extractors.off_origin in O. apply andb_true_iff in O as [O1 O2].
  split; eapply beyond_literal_off_zero; eassumption.
Qed.

Lemma C3_witness :
  Spec.within (-90) 90 (Finite (71 # 2)) /\ Spec.within (-180) 180 (Finite (-195 # 2)) /\
  (Spec.ContentTier = Spec.ContentTier ->
   Spec.off_zero (Finite (71 # 2)) /\ Spec.off_zero (Finite (-195 # 2))).
Proof.
  apply (C3_every_tier_validates_range Spec.ContentTier Examples.content_page
           (Finite (71 # 2), Finite (-195 # 2))).
  vm_compute. reflexivity.
Defined.

(** ** Image URLs *)

(** C4 at the input where the code departs from it: the precheck of the
    second pass accepts an avatar URL that the precheck of the first pass
    refuses, and the second pass stores it. *)
Theorem C4_second_pass_accepts_avatar :
  Extractors.is_valid_image_url "https://lh3.googleusercontent.com/a/avatar-photo" = false /\
  Core.is_valid_image_url "https://lh3.googleusercontent.com/a/avatar-photo" = true /\
  Extractors.extract_image Examples.avatar_page = None /\
  fst (Core.extract_image_advanced Examples.avatar_page)
  = Some "https://lh3.googleusercontent.com/a/avatar-photo=s1000" /\
  image_url (Core.visit Examples.avatar_page)
  = Some "https://lh3.googleusercontent.com/a/avatar-photo=s1000".
Proof. repeat split; vm_compute; reflexivity. Qed.

(** C5, as stated, fails: on a CDN address the first pass asks for 800
    pixels and the second pass for 1000. *)
Lemma C5_cleaners_disagree_on_cdn :
  Extractors.clean_image_url "https://lh3.googleusercontent.com/p/XYZ"
  = Some "https://lh3.googleusercontent.com/p/XYZ=s800" /\
  Core.clean_image_url "https://lh3.googleusercontent.com/p/XYZ"
  = Some "https://lh3.googleusercontent.com/p/XYZ=s1000".
Proof. split; vm_compute; reflexivity. Qed.

(** C5, amended: the two cleaners return the same value for every input
    that is empty (none) or not on the image CDN (the address, with
    [https:] put before a leading [//]).  For an address on the CDN both
    remove the same two size grammars and return the same stripped
    address followed by a size parameter of their own:
    [extractors.py] appends [=s800] when no [=] remains, [&s=800] when
    [=] remains but no [=s] followed by digits, and nothing otherwise;
    [core.py] appends [=s1000] when no [=] remains and [&s=1000]
    otherwise. *)
Theorem C5_cleaners_agree_up_to_size_parameter (url : string) :
  if Urllib.is_empty url ||
     negb (Py.contains "googleusercontent.com" (Extractors.with_protocol url))
  then Extractors.clean_image_url url = Core.clean_image_url url /\
       Core.clean_image_url url
       = (if Urllib.is_empty url then None else Some (Extractors.with_protocol url))
  else
    let base := Extractors.strip_sizes (Extractors.with_protocol url) in
    Extractors.clean_image_url url = Some (base ++ Spec.first_pass_size base) /\
    Core.clean_image_url url = Some (base ++ Spec.second_pass_size base).
Proof.
  assert (N : forall t, t ++ "" = t) by (induction t; simpl; congruence).
  unfold Extractors.clean_image_url, Core.clean_image_url.
  destruct (Urllib.is_empty url); cbn [orb]; [split; reflexivity|].
  destruct (Py.contains "googleusercontent.com" (Extractors.with_protocol url));
    cbn [negb]; [|split; reflexivity].
  cbv zeta. unfold Spec.first_pass_size, Spec.second_pass_size.
  set (base := Extractors.strip_sizes (Extractors.with_protocol url)).
  destruct (Py.contains "=" base); cbn [negb]; [|split; reflexivity].
  destruct (Re.search Extractors.has_size base); cbn [Extractors.is_some negb].
  - rewrite N. split; reflexivity.
  - split; reflexivity.
Qed.

(** ** Steps of a run and the list of places *)

Section Keeps.

Variable P : list Place -> list Place -> Prop.
Hypothesis P_refl : forall l, P l l.
Hypothesis P_trans : forall a b c, P a b -> P b c -> P a c.

Lemma keeps_ret A (a : A) : Spec.keeps P (Core.ret a).
Proof. intros s. apply P_refl. Qed.

Lemma keeps_await A (o : outcome A) : Spec.keeps P (Core.await o).
Proof. intros s. apply P_refl. Qed.

Lemma keeps_call A e (o : outcome A) : Spec.keeps P (Core.call e o).
Proof. intros s. apply P_refl. Qed.

Lemma keeps_get_places : Spec.keeps P Core.get_places.
Proof. intros s. apply P_refl. Qed.

Lemma keeps_get_manager : Spec.keeps P Core.get_manager.
Proof. intros s. apply P_refl. Qed.

Lemma keeps_set_manager m : Spec.keeps P (Core.set_manager m).
Proof. intros s. apply P_refl. Qed.

Lemma keeps_bind A B (m : Core.M A) (k : A -> Core.M B) :
  Spec.keeps P m -> (forall a, Spec.keeps P (k a)) -> Spec.keeps P (Core.mbind m k).
Proof.
  intros Hm Hk s. unfold Core.mbind. specialize (Hm s).
  destruct (m s) as [[a|] s']; simpl in *; [|exact Hm].
  eapply P_trans; [exact Hm|apply Hk].
Qed.

Lemma keeps_try_except A (m h : Core.M A) :
  Spec.keeps P m -> Spec.keeps P h -> Spec.keeps P (Core.try_except m h).
Proof.
  intros Hm Hh s. unfold Core.try_except. specialize (Hm s).
  destruct (m s) as [[a|] s']; simpl in *; [exact Hm|].
  eapply P_trans; [exact Hm|apply Hh].
Qed.

Lemma keeps_try_finally A (m : Core.M A) (f : Core.M unit) :
  Spec.keeps P m -> Spec.keeps P f -> Spec.keeps P (Core.try_finally m f).
Proof.
  intros Hm Hf s. unfold Core.try_finally. specialize (Hm s).
  destruct (m s) as [r s']; simpl in *. specialize (Hf s').
  destruct (f s') as [[u|] s'']; simpl in *; eapply P_trans; eassumption.
Qed.

End Keeps.

Lemma same_refl l : Spec.same l l.
Proof. reflexivity. Qed.

Lemma same_trans a b c : Spec.same a b -> Spec.same b c -> Spec.same a c.
Proof. unfold Spec.same. congruence. Qed.

Lemma keeps_same A P (m : Core.M A) :
  (forall l, P l l) -> Spec.keeps Spec.same m -> Spec.keeps P m.
Proof. intros R H s. rewrite (H s). apply R. Qed.

(** One step of the proof that a program built from the combinators
    keeps a relation. *)
Ltac keeps_step R T :=
  match goal with
  | |- Spec.keeps _ (Core.mbind _ _) => apply keeps_bind; [exact T| |intros ?]
  | |- Spec.keeps _ (Core.try_except _ _) => apply keeps_try_except; [exact T| |]
  | |- Spec.keeps _ (Core.try_finally _ _) => apply keeps_try_finally; [exact T| |]
  | |- Spec.keeps _ (Core.ret _) => apply keeps_ret; exact R
  | |- Spec.keeps _ (Core.await _) => apply keeps_await; exact R
  | |- Spec.keeps _ (Core.call _ _) => apply keeps_call; exact R
  | |- Spec.keeps _ Core.get_places => apply keeps_get_places; exact R
  | |- Spec.keeps _ Core.get_manager => apply keeps_get_manager; exact R
  | |- Spec.keeps _ (Core.set_manager _) => apply keeps_set_manager; exact R
  | |- Spec.keeps _ (if ?b then _ else _) => destruct b
  | |- Spec.keeps _ (match ?x with _ => _ end) => destruct x
  end.

Ltac frame := repeat keeps_step same_refl same_trans.

Lemma start_same w : Spec.keeps Spec.same (Core.start w).
Proof. unfold Core.start. frame. Qed.

Lemma close_same w : Spec.keeps Spec.same (Core.close w).
Proof. unfold Core.close. frame. Qed.

Lemma new_page_same w : Spec.keeps Spec.same (Core.new_page w).
Proof. unfold Core.new_page. frame. Qed.

Lemma scroll_sidebar_same w k : Spec.keeps Spec.same (Core.scroll_sidebar w k).
Proof. unfold Core.scroll_sidebar. frame. Qed.

Lemma scroll_loop_same w total remaining a prev nn :
  Spec.keeps Spec.same (Core.scroll_loop w total remaining a prev nn).
Proof.
  revert a prev nn. induction remaining as [|r IH]; intros a prev nn; simpl.
  - frame.
  - repeat first [apply IH | apply scroll_sidebar_same | keeps_step same_refl same_trans].
Qed.

Lemma click_listing_same w idx attempts a :
  Spec.keeps Spec.same (Core.click_listing w idx attempts a).
Proof.
  revert a. induction attempts as [|n IH]; intros a; simpl.
  - frame.
  - repeat first [apply IH | keeps_step same_refl same_trans].
Qed.

Lemma grows_refl total l : Spec.grows total l l.
Proof.
  exists []. rewrite app_nil_r. repeat split; [constructor|lia].
Qed.

Lemma grows_trans total a b c :
  Spec.grows total a b -> Spec.grows total b c -> Spec.grows total a c.
Proof.
  intros (x & -> & Fx & Lx) (y & -> & Fy & Ly).
  exists (x ++ y)%list. rewrite app_assoc. repeat split.
  - apply Forall_app. now split.
  - lia.
Qed.

Lemma invalid_name_accepted p : Core.invalid_name p = false -> Spec.accepted_name p.
Proof.
  unfold Core.invalid_name, Spec.accepted_name.
  destruct (name p) as [n|]; [|discriminate].
  intros H. apply orb_false_iff in H as [_ H].
  apply orb_false_iff in H as [H H3]. apply orb_false_iff in H as [H1 H2].
  exists n. split; [reflexivity|].
  repeat split; intros ->;
    [rewrite String.eqb_refl in H1|rewrite String.eqb_refl in H2
    |rewrite String.eqb_refl in H3]; discriminate.
Qed.

(** A candidate adds at most one record, and only one with a valid name. *)
Lemma process_listing_adds w idx s :
  exists s', Core.process_listing w idx s = (Ok tt, s') /\
             (Core.places s' = Core.places s \/
              exists p, Core.places s' = (Core.places s ++ [p])%list /\
                        Spec.produced p).
Proof.
  unfold Core.process_listing, Core.try_except, Core.mbind.
  pose proof (click_listing_same w idx Core.max_click_attempts 0 s) as F.
  destruct (Core.click_listing w idx Core.max_click_attempts 0 s) as [[[page|]|] s1];
    simpl in F; unfold Spec.same in F.
  - unfold Core.await. destruct (wait_for_timeout page).
    + destruct (Core.invalid_name (Core.visit page)) eqn:E.
      * eexists. split; [reflexivity|]. left. exact F.
      * eexists. split; [reflexivity|]. right.
        exists (Core.visit page). simpl. rewrite F.
        split; [reflexivity|]. split; [exact E|now exists page].
    + eexists. split; [reflexivity|]. left. exact F.
  - eexists. split; [reflexivity|]. left. exact F.
  - eexists. split; [reflexivity|]. left. exact F.
Qed.

Lemma process_listings_grows w total listings :
  Spec.keeps (Spec.grows total) (Core.process_listings w total listings).
Proof.
  induction listings as [|idx rest IH]; intros s; simpl.
  - apply grows_refl.
  - unfold Core.mbind, Core.get_places.
    destruct (total <=? Z.of_nat (List.length (Core.places s)))%Z eqn:E.
    + apply grows_refl.
    + apply Z.leb_gt in E.
      destruct (process_listing_adds w idx s) as (s' & -> & H).
      eapply grows_trans; [|apply IH].
      destruct H as [H | (p & H & Hp)]; rewrite H.
      * apply grows_refl.
      * exists [p]. split; [reflexivity|]. split.
        -- constructor; [exact Hp|constructor].
        -- rewrite length_app. simpl. lia.
Qed.

Ltac grow total := repeat keeps_step (grows_refl total) (grows_trans total).

Lemma session_grows w search_for total :
  Spec.keeps (Spec.grows total) (Core.session w search_for total).
Proof.
  unfold Core.session.
  repeat first
    [ apply process_listings_grows
    | apply keeps_same; [apply grows_refl|apply scroll_loop_same]
    | keeps_step (grows_refl total) (grows_trans total) ].
Qed.

Lemma scrape_grows w search_for total :
  Spec.keeps (Spec.grows total) (Core.scrape w search_for total).
Proof.
  unfold Core.scrape, Core.with_page.
  repeat first
    [ apply session_grows
    | apply keeps_same; [apply grows_refl|apply start_same]
    | apply keeps_same; [apply grows_refl|apply close_same]
    | apply keeps_same; [apply grows_refl|apply new_page_same]
    | keeps_step (grows_refl total) (grows_trans total) ].
Qed.

(** The list a run returns is the list of places of its final state. *)
Lemma scrape_places_returns w search_for total l :
  Core.scrape_places w search_for total = Ok l ->
  l = Core.places (snd (Core.run w search_for total)).
Proof.
  unfold Core.scrape_places, Core.run, Core.scrape, Core.mbind, Core.get_places.
  destruct (Core.try_finally _ _ _) as [[u|] s']; simpl; [|discriminate].
  now intros [= <-].
Qed.

Lemma run_grows w search_for total :
  Spec.grows total [] (Core.places (snd (Core.run w search_for total))).
Proof. apply (scrape_grows w search_for total Core.initial). Qed.

(** ** The scroll loop *)

Lemma main_scrolls_app t u :
  Spec.main_scrolls (t ++ u) = Spec.main_scrolls t + Spec.main_scrolls u.
Proof. unfold Spec.main_scrolls. now rewrite filter_app, length_app. Qed.

(** The corrective action never raises, and its browser calls are those
    of [Spec.corrective]. *)
Lemma scroll_sidebar_run w k s :
  Core.scroll_sidebar w k s = (Ok tt, Spec.logged s (Spec.corrective w k)).
Proof.
  unfold Core.scroll_sidebar, Core.try_except, Core.mbind, Core.call, Core.ret,
    Spec.corrective, Spec.logged.
  destruct (Core.sidebar_count w k) as [[|n]|]; cbn.
  - reflexivity.
  - destruct (Core.scroll_into_view w k); cbn.
    + rewrite <- !app_assoc. destruct (Core.sidebar_wheel w k) as [[]|]; reflexivity.
    + now rewrite <- !app_assoc.
  - reflexivity.
Qed.

Lemma main_scrolls_corrective w k : Spec.main_scrolls (Spec.corrective w k) = 0.
Proof.
  unfold Spec.corrective.
  destruct (Core.sidebar_count w k) as [[|n]|]; try reflexivity.
  destruct (Core.scroll_into_view w k); reflexivity.
Qed.

Lemma logged_logged s a b : Spec.logged (Spec.logged s a) b = Spec.logged s (a ++ b).
Proof. unfold Spec.logged. simpl. now rewrite app_assoc. Qed.

Section Stagnant.

Variables (w : Core.World) (total : Z) (c : nat).
Hypothesis below_target : (Z.of_nat c < total)%Z.
Hypothesis never_grows : forall k, Core.listings_count w k = Ok c.
Hypothesis wheel_works : forall k, Core.mouse_wheel w k = Ok tt.

Local Abbreviation scroll := (Core.Wheel 15000).

Lemma target_not_reached : (total <=? Z.of_nat c)%Z = false.
Proof. apply Z.leb_gt. exact below_target. Qed.

(** The first scroll of a list that is not empty counts as growth. *)
Lemma stagnant_first r a nn s :
  c <> 0 ->
  Core.scroll_loop w total (S r) a 0 nn s
  = Core.scroll_loop w total r (S a) c 0 (Spec.logged s [scroll]).
Proof.
  intros Hc. cbn [Core.scroll_loop]. unfold Core.mbind, Core.call, Core.await.
  rewrite wheel_works, never_grows, target_not_reached.
  destruct (Nat.eqb_spec c 0) as [E|_]; [contradiction|]. reflexivity.
Qed.

(** A no-growth attempt that is neither the second nor the fifth. *)
Lemma stagnant_quiet r a nn s :
  (S nn =? 2)%nat = false -> (5 <=? S nn)%nat = false ->
  Core.scroll_loop w total (S r) a c nn s
  = Core.scroll_loop w total r (S a) c (S nn) (Spec.logged s [scroll]).
Proof.
  intros H2 H5. cbn [Core.scroll_loop]. unfold Core.mbind, Core.call, Core.await.
  rewrite wheel_works, never_grows, target_not_reached, Nat.eqb_refl, H2, H5.
  reflexivity.
Qed.

(** The second repeated count, with the corrective action. *)
Lemma stagnant_second r a s :
  Core.scroll_loop w total (S r) a c 1 s
  = Core.scroll_loop w total r (S a) c 2
      (Spec.logged s (scroll :: Spec.corrective w a)).
Proof.
  cbn [Core.scroll_loop]. unfold Core.mbind, Core.call, Core.await.
  rewrite wheel_works, never_grows, target_not_reached, Nat.eqb_refl.
  cbn [Nat.eqb Nat.leb].
  pose proof (scroll_sidebar_run w a (Spec.logged s [scroll])) as E.
  unfold Spec.logged in E. rewrite E.
  unfold Spec.logged. cbn [Core.places Core.trace Core.manager].
  now rewrite <- app_assoc.
Qed.

(** The fifth no-growth attempt ends the loop. *)
Lemma stagnant_fifth r a s :
  Core.scroll_loop w total (S r) a c 4 s = (Ok (a, 5), Spec.logged s [scroll]).
Proof.
  cbn [Core.scroll_loop]. unfold Core.mbind, Core.call, Core.await.
  rewrite wheel_works, never_grows, target_not_reached, Nat.eqb_refl.
  reflexivity.
Qed.

(** From a count that already equals the rendered count, the loop makes
    five attempts. *)
Lemma stagnant_five r a s :
  Core.scroll_loop w total (5 + r) a c 0 s
  = (Ok (4 + a, 5),
     Spec.logged s ([scroll; scroll] ++ Spec.corrective w (S a)
                    ++ [scroll; scroll; scroll])).
Proof.
  change (5 + r) with (S (S (S (S (S r))))).
  rewrite stagnant_quiet by reflexivity.
  rewrite stagnant_second.
  rewrite 2 stagnant_quiet by reflexivity.
  rewrite stagnant_fifth. rewrite !logged_logged.
  reflexivity.
Qed.

End Stagnant.

(** Whatever the browser answers, an iteration of the scroll loop
    scrolls once, so the loop scrolls at most [remaining] times. *)
Lemma scroll_loop_bounded w total remaining a prev nn s :
  Spec.main_scrolls (Core.trace (snd (Core.scroll_loop w total remaining a prev nn s)))
  <= Spec.main_scrolls (Core.trace s) + remaining.
Proof.
  revert a prev nn s. induction remaining as [|r IH]; intros a prev nn s.
  - cbn [Core.scroll_loop Core.ret snd]. lia.
  - cbn [Core.scroll_loop]. unfold Core.mbind, Core.call, Core.await.
    set (s1 := Core.mkState (Core.places s) (Core.trace s ++ [Core.Wheel 15000])
                            (Core.manager s)).
    assert (H1 : Spec.main_scrolls (Core.trace s1) = Spec.main_scrolls (Core.trace s) + 1)
      by (subst s1; cbn [Core.trace]; now rewrite main_scrolls_app).
    destruct (Core.mouse_wheel w a); [|unfold Core.ret; cbn [snd]; lia].
    destruct (Core.listings_count w a) as [found|]; [|unfold Core.ret; cbn [snd]; lia].
    destruct (total <=? Z.of_nat found)%Z; [unfold Core.ret; cbn [snd]; lia|].
    destruct (found =? prev)%nat.
    + assert (Hs : exists s2, (if (S nn =? 2)%nat then Core.scroll_sidebar w a
                               else Core.ret tt) s1 = (Ok tt, s2) /\
                   Spec.main_scrolls (Core.trace s2) = Spec.main_scrolls (Core.trace s1)).
      { destruct (S nn =? 2)%nat.
        - eexists. split; [apply scroll_sidebar_run|].
          unfold Spec.logged. cbn [Core.trace].
          rewrite main_scrolls_app, main_scrolls_corrective. lia.
        - unfold Core.ret. eexists. split; reflexivity. }
      destruct Hs as (s2 & -> & H2).
      destruct (5 <=? S nn)%nat; [unfold Core.ret; cbn [snd]; lia|].
      specialize (IH (S a) found (S nn) s2). lia.
    + specialize (IH (S a) found 0 s1). lia.
Qed.

(** C6, as stated, fails: a list that shows three results after every
    scroll, below a target of ten, is scrolled six times and not five;
    the corrective action (here on a side bar that is there) follows the
    third scroll and not the second.  The loop compares each count with
    the count of the attempt before, and the count before the first
    attempt is taken as 0. *)
Lemma C6_six_scrolls_when_the_list_never_grows :
  Core.scroll_loop (Examples.smooth_world 3 (fun _ => Examples.titled_page "A")) 10
                   Core.max_scroll_attempts 0 0 0 Core.initial
  = (Ok (5, 5),
     Spec.logged Core.initial
       [Core.Wheel 15000; Core.Wheel 15000; Core.Wheel 15000;
        Core.QuerySidebar; Core.ScrollIntoView; Core.Wheel 10000;
        Core.Wheel 15000; Core.Wheel 15000; Core.Wheel 15000]) /\
  Spec.main_scrolls
    (Core.trace
       (snd (Core.scroll_loop (Examples.smooth_world 3 (fun _ => Examples.titled_page "A")) 10
                              Core.max_scroll_attempts 0 0 0 Core.initial))) = 6.
Proof. split; vm_compute; reflexivity. Qed.

(** C6, amended: the scroll loop never makes more than 30 scroll
    attempts.  On a list whose rendered count is the same [c] after
    every scroll and below the target, it stops at the fifth consecutive
    attempt whose count equals the count of the attempt before, the
    count before the first attempt being taken as 0: an empty list is
    scrolled exactly five times, and a list that is not empty exactly
    six times, its first scroll counting as growth.  The corrective
    action is taken exactly once, at the second of the five attempts:
    after the second scroll of an empty list and after the third scroll
    of a list that is not empty. *)
Theorem C6_scroll_loop_stops_after_five_stagnant_attempts
    (w : Core.World) (total : Z) (s : Core.run_state) :
  Spec.main_scrolls
    (Core.trace (snd (Core.scroll_loop w total Core.max_scroll_attempts 0 0 0 s)))
  <= Spec.main_scrolls (Core.trace s) + 30 /\
  forall c : nat,
    (Z.of_nat c < total)%Z ->
    (forall k, Core.listings_count w k = Ok c) ->
    (forall k, Core.mouse_wheel w k = Ok tt) ->
    let lead := if (c =? 0)%nat then 0 else 1 in
    Core.scroll_loop w total Core.max_scroll_attempts 0 0 0 s
    = (Ok (lead + 4, 5),
       Spec.logged s (repeat (Core.Wheel 15000) (lead + 2)
                      ++ Spec.corrective w (lead + 1)
                      ++ repeat (Core.Wheel 15000) 3)).
Proof.
  split; [apply scroll_loop_bounded|].
  intros c Hlt Hcount Hwheel lead. subst lead.
  destruct (Nat.eqb_spec c 0) as [E|E].
  - pose proof (stagnant_five w total c Hlt Hcount Hwheel 25 0 s) as H.
    subst c. exact H.
  - pose proof (stagnant_five w total c Hlt Hcount Hwheel 24 1
                  (Spec.logged s [Core.Wheel 15000])) as H.
    change Core.max_scroll_attempts with (S (5 + 24)).
    rewrite (stagnant_first w total c Hlt Hcount Hwheel) by exact E.
    rewrite H, logged_logged. reflexivity.
Qed.

Lemma C6_witness :
  Core.scroll_loop (Examples.smooth_world 2 (fun _ => Examples.titled_page "A")) 10
                   Core.max_scroll_attempts 0 0 0 Core.initial
  = (Ok (5, 5),
     Spec.logged Core.initial
       (repeat (Core.Wheel 15000) 3
        ++ Spec.corrective (Examples.smooth_world 2 (fun _ => Examples.titled_page "A")) 2
        ++ repeat (Core.Wheel 15000) 3)).
Proof.
  apply (proj2 (C6_scroll_loop_stops_after_five_stagnant_attempts
                  (Examples.smooth_world 2 (fun _ => Examples.titled_page "A")) 10
                  Core.initial) 2).
  - reflexivity.
  - intros k. reflexivity.
  - intros k. reflexivity.
Defined.

(** ** The run as a whole *)

(** C2 at the input where the code departs from it: the first pass
    refuses the link to the platform itself, the second pass returns the
    same link without looking at its domain, and the run stores it. *)
Theorem C2_second_pass_stores_platform_link :
  fst (Extractors.extract_website Examples.platform_link_page) = None /\
  fst (Core.extract_website_advanced Examples.platform_link_page)
  = Some "https://www.google.com/maps/contrib/1" /\
  Spec.on_denylist "https://www.google.com/maps/contrib/1" = true /\
  Core.scrape_places
    (Examples.smooth_world 1 (fun _ => Examples.platform_link_page)) "sod farms" 1
  = Ok [mkPlace (Some "Acme Sod") None None
                (Some "https://www.google.com/maps/contrib/1") None None None
                (Some (Finite (71 # 2))) (Some (Finite (-195 # 2)))].
Proof. repeat split; vm_compute; reflexivity. Qed.

Lemma close_returns w s :
  Core.context_close w = Ok tt -> Core.browser_close w = Ok tt ->
  Core.playwright_stop w = Ok tt ->
  fst (Core.close w s) = Ok tt.
Proof.
  intros H1 H2 H3. unfold Core.close, Core.mbind, Core.get_manager, Core.call, Core.ret.
  rewrite H1, H2, H3.
  destruct (Core.has_context (Core.manager s)), (Core.has_browser (Core.manager s)),
           (Core.has_playwright (Core.manager s)); reflexivity.
Qed.

Lemma session_same_on_timeout w search_for total :
  Core.wait_for_selector w = Raise ->
  Spec.keeps Spec.same (Core.session w search_for total).
Proof.
  intros H s.
  unfold Spec.same, Core.session, Core.mbind, Core.await, Core.try_except, Core.ret.
  rewrite H.
  destruct (Core.goto w), (Core.fill w search_for), (Core.press_enter w); reflexivity.
Qed.

(** C8, as stated, fails: the browser is closed in a [finally] block
    outside the [try ... except]; when closing raises, the exception
    leaves [scrape_places], here after the wait for the results timed
    out. *)
Lemma C8_failing_close_raises :
  Core.wait_for_selector Examples.timeout_and_failing_close = Raise /\
  Core.scrape_places Examples.timeout_and_failing_close "sod farms" 10 = Raise.
Proof. split; reflexivity. Qed.

(** C8, amended: in every run in which the three calls of
    [BrowserManager.close] (context, browser, playwright) return,
    [scrape_places] returns a list, whatever else the browser raises:
    the list of the records gathered when the body of its [try] block
    ended, by returning or by raising.  When the wait for the first
    result link times out, that list is empty. *)
Theorem C8_returns_a_list_when_closing_succeeds
    (w : Core.World) (search_for : string) (total : Z) :
  Core.context_close w = Ok tt ->
  Core.browser_close w = Ok tt ->
  Core.playwright_stop w = Ok tt ->
  Core.scrape_places w search_for total = Ok (Spec.gathered w search_for total) /\
  (Core.wait_for_selector w = Raise -> Core.scrape_places w search_for total = Ok []).
Proof.
  intros H1 H2 H3.
  assert (R : Core.scrape_places w search_for total
              = Ok (Spec.gathered w search_for total)).
  { unfold Core.scrape_places, Core.run, Core.scrape, Spec.gathered.
    change (Core.mbind (Core.start w)
              (fun _ => Core.with_page w (Core.session w search_for total)))
      with (Spec.guarded w search_for total).
    unfold Core.mbind at 1. unfold Core.try_finally, Core.try_except, Core.get_places.
    destruct (Spec.guarded w search_for total Core.initial) as [[[]|] s1];
      cbn [snd]; unfold Core.ret;
      pose proof (close_returns w s1 H1 H2 H3) as C;
      pose proof (close_same w s1) as K; unfold Spec.same in K;
      destruct (Core.close w s1) as [c s2]; cbn [fst snd] in C, K; subst c;
      now rewrite K. }
  split; [exact R|].
  intros T. rewrite R. f_equal.
  unfold Spec.gathered.
  assert (K : Spec.keeps Spec.same (Spec.guarded w search_for total));
    [|exact (K Core.initial)].
  unfold Spec.guarded, Core.with_page.
  repeat first
    [ apply session_same_on_timeout; exact T
    | apply start_same | apply close_same | apply new_page_same
    | keeps_step same_refl same_trans ].
Qed.

(** A run that gathers two records and then raises, when the page is
    closed: the two records are returned. *)
Lemma C8_witness :
  fst (Spec.guarded (Examples.failing_page_close 2 (fun _ => Examples.titled_page "A"))
                    "sod farms" 2 Core.initial) = Raise /\
  Core.scrape_places (Examples.failing_page_close 2 (fun _ => Examples.titled_page "A"))
                     "sod farms" 2
  = Ok [Core.visit (Examples.titled_page "A"); Core.visit (Examples.titled_page "A")].
Proof.
  split; [vm_compute; reflexivity|].
  rewrite (proj1 (C8_returns_a_list_when_closing_succeeds
                    (Examples.failing_page_close 2 (fun _ => Examples.titled_page "A"))
                    "sod farms" 2 eq_refl eq_refl eq_refl)).
  vm_compute. reflexivity.
Defined.

(** C9: every record of the list a run returns has a name that is set,
    not empty, and neither "Unknown" nor "Failed to extract". *)
Theorem C9_returned_records_have_accepted_names
    (w : Core.World) (search_for : string) (total : Z) (l : list Place) (p : Place) :
  Core.scrape_places w search_for total = Ok l -> In p l -> Spec.accepted_name p.
Proof.
  intros H Hp. apply scrape_places_returns in H. subst l.
  destruct (run_grows w search_for total) as (added & E & F & _).
  rewrite E in Hp. simpl in Hp.
  apply invalid_name_accepted. rewrite Forall_forall in F. now apply F.
Qed.

Lemma C9_witness : Spec.accepted_name (Core.visit (Examples.titled_page "Acme Sod")).
Proof.
  apply (C9_returned_records_have_accepted_names
           (Examples.smooth_world 1 (fun _ => Examples.titled_page "Acme Sod"))
           "sod farms" 1 [Core.visit (Examples.titled_page "Acme Sod")]).
  - vm_compute. reflexivity.
  - left. reflexivity.
Defined.

(** C10: for a positive target, the list a run returns holds at most
    [total] records. *)
Theorem C10_at_most_total_records
    (w : Core.World) (search_for : string) (total : Z) (l : list Place) :
  (0 < total)%Z ->
  Core.scrape_places w search_for total = Ok l ->
  (Z.of_nat (List.length l) <= total)%Z.
Proof.
  intros Hpos H. apply scrape_places_returns in H. subst l.
  destruct (run_grows w search_for total) as (added & _ & _ & L).
  simpl in L. lia.
Qed.

Lemma C10_witness :
  (Z.of_nat (List.length [Core.visit (Examples.titled_page "A");
                          Core.visit (Examples.titled_page "A")]) <= 2)%Z.
Proof.
  apply (C10_at_most_total_records
           (Examples.smooth_world 3 (fun _ => Examples.titled_page "A")) "sod farms" 2).
  - reflexivity.
  - vm_compute. reflexivity.
Defined.

(** ** Field extractors *)

(** A value found by a loop over selectors was found by the probe of one
    of them. *)
Lemma try_each_found A (probe : string -> outcome (option A)) selectors a :
  try_each probe selectors = Some a ->
  exists selector, In selector selectors /\ probe selector = Ok (Some a).
Proof.
  induction selectors as [|sel rest IH]; simpl; [discriminate|].
  destruct (probe sel) as [[a'|]|] eqn:E.
  - intros [= <-]. exists sel. auto.
  - intros H. destruct (IH H) as (x & Hx & Px). exists x. auto.
  - intros H. destruct (IH H) as (x & Hx & Px). exists x. auto.
Qed.

Lemma rstrip_by_last p s a r :
  Py.rstrip_by p s = String a r ->
  exists b, Spec.last_char (String a r) = Some b /\ p b = false.
Proof.
  revert a r. induction s as [|c s IH]; intros a r; cbn [Py.rstrip_by]; [discriminate|].
  destruct (Py.rstrip_by p s) as [|d r'].
  - destruct (p c) eqn:Pc; [discriminate|]. intros [= <- <-]. now exists c.
  - intros [= <- <-]. destruct (IH d r' eq_refl) as (b & L & Pb). now exists b.
Qed.

(** What [strip] returns, when it is not empty, has no white space at
    either end. *)
Lemma strip_trimmed x : Py.strip x <> "" -> Spec.trimmed (Py.strip x).
Proof.
  unfold Py.strip.
  destruct (lstrip_by_result Py.isspace x) as [E | (c & r & E & Pc)]; rewrite E.
  - intros H. now destruct H.
  - intros _. destruct (rstrip_by_keeps_head Py.isspace c r Pc) as [r' E'].
    destruct (rstrip_by_last _ _ _ _ E') as (b & L & Pb).
    rewrite E'. now exists c, b.
Qed.

Lemma stripped_text_found page selector t :
  Extractors.stripped_text page selector = Ok (Some t) ->
  Spec.trimmed t /\ Py.strip t = t.
Proof.
  unfold Extractors.stripped_text, bind.
  destruct (first_match page selector) as [[el|]|]; try discriminate.
  destruct (text_content el) as [[x|]|]; try discriminate.
  destruct (String.eqb (Py.strip x) "") eqn:E; cbn [negb]; [discriminate|].
  intros [= <-]. split.
  - apply strip_trimmed. intros H. rewrite H in E. discriminate.
  - apply strip_idem.
Qed.

Lemma trimmed_not_empty t : Spec.trimmed t -> t <> "".
Proof. intros (a & _ & F & _) ->. discriminate. Qed.

Lemma extract_name_shape (page : Page) :
  exists n, Extractors.extract_name page = Some n /\
            (n = "Unknown" \/ (n <> "" /\ Py.strip n = n)).
Proof.
  unfold Extractors.extract_name.
  destruct (try_each _ _) as [n|] eqn:E.
  - exists n. split; [reflexivity|]. right.
    apply try_each_found in E as (sel & _ & H).
    apply stripped_text_found in H as [T S]. split; [|exact S].
    now apply trimmed_not_empty.
  - exists "Unknown". auto.
Qed.


(** An address or a phone number that is returned is not empty and its
    first and last characters are no white space ([str.isspace]). *)
Theorem extract_address_phone_stripped (page : Page) (t : string) :
  Extractors.extract_address page = Some t \/ Extractors.extract_phone page = Some t ->
  Spec.trimmed t /\ Py.strip t = t.
Proof.
  unfold Extractors.extract_address, Extractors.extract_phone.
  intros [E|E]; apply try_each_found in E as (sel & _ & H);
    now apply stripped_text_found in H.
Qed.

(** An address between a no-break space and a next-line character. *)
Lemma extract_address_phone_stripped_witness :
  Spec.trimmed "12 Elm St" /\ Py.strip "12 Elm St" = "12 Elm St".
Proof.
  apply (extract_address_phone_stripped
           (Examples.static_page "" ""
              [(".rogA2c .Io6YTe",
                [Examples.element
                   (Some (String "160" (" 12 Elm St " ++ String "133" ""))) []])])).
  left. vm_compute. reflexivity.
Defined.

Lemma rating_of_text_range t r :
  Extractors.rating_of_text t = Ok (Some r) -> in_range 0 5 r = true.
Proof.
  unfold Extractors.rating_of_text.
  destruct (Re.search _ _) as [m|]; [|discriminate].
  destruct (Re.group 1 _) as [g|]; [|discriminate].
  destruct (float_of_string g) as [x|]; [|discriminate].
  destruct (in_range 0 5 x) eqn:E; [|discriminate].
  intros [= <-]. exact E.
Qed.

Lemma extract_rating_range (page : Page) (r : pyfloat) :
  Extractors.extract_rating page = Some r -> Spec.within 0 5 r.
Proof.
  unfold Extractors.extract_rating. intros E.
  apply try_each_found in E as (sel & _ & H). unfold bind in H.
  destruct (first_match page sel) as [[el|]|]; try discriminate.
  destruct (text_content el) as [t|]; [|discriminate].
  destruct (Py.truthy t); [|discriminate].
  apply in_range_within. eapply rating_of_text_range. exact H.
Qed.

(** A rating that is returned is a finite number between 0 and 5. *)
Theorem extract_rating_in_range (page : Page) (r : pyfloat) :
  Extractors.extract_rating page = Some r -> Spec.within 0 5 r.
Proof. exact (extract_rating_range page r). Qed.

Lemma extract_rating_in_range_witness : Spec.within 0 5 (Finite (9 # 2)).
Proof.
  apply (extract_rating_in_range
           (Examples.static_page "" "" [(".MW4etd", [Examples.element (Some " 4.5 stars") []])])).
  vm_compute. reflexivity.
Defined.

Lemma digits_value_nonneg s acc : (0 <= acc)%Z -> (0 <= Py.digits_value acc s)%Z.
Proof.
  revert acc. induction s as [|c s IH]; intros acc H; cbn [Py.digits_value]; [exact H|].
  apply IH. pose proof (Zle_0_nat (Py.code c - 48)). lia.
Qed.

(** A review count that is returned is not negative. *)
Theorem extract_reviews_count_nonneg (page : Page) (n : Z) :
  Extractors.extract_reviews_count page = Some n -> (0 <= n)%Z.
Proof.
  unfold Extractors.extract_reviews_count. intros E.
  apply try_each_found in E as (sel & _ & H). unfold bind in H.
  destruct (first_match page sel) as [[el|]|]; try discriminate.
  destruct (text_content el) as [t|]; [|discriminate].
  destruct (Py.truthy t); [|discriminate].
  unfold Extractors.reviews_of_text in H.
  destruct (Re.search _ _) as [m|]; [|discriminate].
  destruct (Re.group 1 _) as [g|]; [|discriminate].
  unfold Py.int_of_digits in H.
  destruct (_ && _); [|discriminate].
  injection H as <-. now apply digits_value_nonneg.
Qed.

Lemma extract_reviews_count_nonneg_witness : (0 <= 1234)%Z.
Proof.
  apply (extract_reviews_count_nonneg
           (Examples.static_page "" "" [(".UY7F9", [Examples.element (Some "(1,234)") []])])).
  vm_compute. reflexivity.
Defined.

(** ** Web sites *)










(** The characters of a string. *)
Lemma startswith_chars n s c :
  Py.startswith s n = true ->
  In c (list_ascii_of_string n) -> In c (list_ascii_of_string s).
Proof.
  revert s. induction n as [|a n IH]; intros s H Hc; simpl in *; [contradiction|].
  destruct s as [|b s]; [discriminate|].
  apply andb_true_iff in H as [Hab Hn]. apply Ascii.eqb_eq in Hab. subst b.
  simpl. destruct Hc as [->|Hc]; [now left|right; now apply IH].
Qed.

Lemma contains_chars n s c :
  Py.contains n s = true ->
  In c (list_ascii_of_string n) -> In c (list_ascii_of_string s).
Proof.
  intros H Hc. induction s as [|b s IH]; simpl in H.
  - apply orb_true_iff in H as [H|H]; [|discriminate].
    now apply (startswith_chars n "" c).
  - apply orb_true_iff in H as [H|H].
    + now apply (startswith_chars n (String b s) c).
    + simpl. right. now apply IH.
Qed.

Lemma lower_chars c s :
  In c (list_ascii_of_string (Py.lower s)) ->
  exists d, In d (list_ascii_of_string s) /\ Py.lower_char d = c.
Proof.
  induction s as [|b s IH]; simpl; [contradiction|].
  intros [H|H].
  - exists b. auto.
  - destruct (IH H) as (d & Hd & E). exists d. auto.
Qed.

Lemma lower_char_slash d : Py.lower_char d = "/"%char -> d = "/"%char.
Proof.
  destruct d as [[] [] [] [] [] [] [] []]; vm_compute; intros H;
    first [reflexivity | discriminate H].
Qed.

Lemma partition_fst_free p s c :
  In c (list_ascii_of_string (fst (Py.partition p s))) -> p c = false.
Proof.
  induction s as [|b s IH]; simpl; [contradiction|].
  destruct (p b) eqn:E; simpl; [contradiction|].
  destruct (Py.partition p s) as [h t]. simpl in *.
  intros [<-|H]; [exact E|now apply IH].
Qed.

(** The network location [urlsplit] returns holds no slash, no question
    mark and no hash. *)
Lemma urlsplit_netloc_delimiter_free u r c :
  Urllib.urlsplit u = Some r ->
  In c (list_ascii_of_string (Urllib.netloc r)) -> Py.in_chars "/?#" c = false.
Proof.
  unfold Urllib.urlsplit.
  set (url1 := Py.remove_char _ _).
  match goal with |- context [let '(a, b) := ?X in _] => destruct X as [sch url2] end.
  destruct (Py.startswith url2 "//").
  - set (nl := fst (Py.partition (Py.in_chars "/?#") (Py.drop 2 url2))).
    cbv zeta. cbn iota.
    destruct (xorb _ _); [discriminate|].
    destruct (_ && _); [discriminate|].
    destruct (Py.partition (Ascii.eqb "#") _) as [url3 frag].
    destruct (Py.partition (Ascii.eqb "?") _) as [url4 qry].
    intros [= <-]. cbn [Urllib.netloc]. subst nl. apply partition_fst_free.
  - cbn iota.
    destruct (xorb _ _); [discriminate|].
    destruct (_ && _); [discriminate|].
    destruct (Py.partition (Ascii.eqb "#") _) as [url3 frag].
    destruct (Py.partition (Ascii.eqb "?") _) as [url4 qry].
    intros [= <-]. cbn [Urllib.netloc]. contradiction.
Qed.

(** The excluded domain [facebook.com/tr] holds a slash and a network
    location holds none, so this entry never excludes anything: the
    denylist test of [clean_website_url] is the test of its first five
    entries. *)
Theorem denylist_entry_with_slash_never_matches (u : string) (r : Urllib.SplitResult) :
  Urllib.urlsplit u = Some r ->
  Py.contains_any Extractors.excluded_domains (Py.lower (Urllib.netloc r))
  = Py.contains_any (List.firstn 5 Extractors.excluded_domains) (Py.lower (Urllib.netloc r)).
Proof.
  intros H.
  assert (F : Py.contains "facebook.com/tr" (Py.lower (Urllib.netloc r)) = false).
  { destruct (Py.contains "facebook.com/tr" (Py.lower (Urllib.netloc r))) eqn:E;
      [|reflexivity].
    assert (S : In "/"%char (list_ascii_of_string (Py.lower (Urllib.netloc r)))).
    { apply (contains_chars "facebook.com/tr"); [exact E|]. simpl. tauto. }
    apply lower_chars in S as (d & Hd & Ed). apply lower_char_slash in Ed. subst d.
    apply (urlsplit_netloc_delimiter_free u r _ H) in Hd. discriminate Hd. }
  unfold Py.contains_any, Extractors.excluded_domains. cbn [existsb List.firstn].
  rewrite F. reflexivity.
Qed.

Lemma denylist_entry_with_slash_never_matches_witness :
  Py.contains_any Extractors.excluded_domains (Py.lower "facebook.com")
  = Py.contains_any (List.firstn 5 Extractors.excluded_domains) (Py.lower "facebook.com").
Proof.
  apply (denylist_entry_with_slash_never_matches "https://facebook.com/tr?id=1"
           (Urllib.mkSplit "https" "facebook.com" "/tr" "id=1" "")).
  vm_compute. reflexivity.
Defined.

(** ** Images *)

(** Whatever the precheck of the first pass accepts, the precheck of the
    second pass accepts. *)
Theorem first_pass_precheck_is_stricter (url : string) :
  Extractors.is_valid_image_url url = true -> Core.is_valid_image_url url = true.
Proof.
  unfold Extractors.is_valid_image_url, Core.is_valid_image_url.
  destruct (Urllib.is_empty url); [discriminate|].
  destruct (negb (Extractors.proper_url url)); [discriminate|].
  intros H. now apply andb_true_iff in H.
Qed.

Lemma first_pass_precheck_is_stricter_witness :
  Core.is_valid_image_url "https://lh3.googleusercontent.com/p/XYZ=s100-k-no" = true.
Proof.
  apply first_pass_precheck_is_stricter. vm_compute. reflexivity.
Defined.

Lemma startswith_app s p : Py.startswith s p = true -> exists t, s = p ++ t.
Proof.
  revert s. induction p as [|a p IH]; intros s H.
  - now exists s.
  - destruct s as [|b s]; [discriminate|]. simpl in H.
    apply andb_true_iff in H as [E H]. apply Ascii.eqb_eq in E. subst b.
    destruct (IH s H) as [t ->]. now exists t.
Qed.

(** A character other than [=] in front of a match of the size patterns
    is kept by [re.sub]. *)
Lemma sub_empty_skip r b s :
  r = Extractors.size_s \/ r = Extractors.size_wh ->
  Ascii.eqb "=" b = false ->
  Re.sub_empty r (String b s) = String b (Re.sub_empty r s).
Proof.
  intros Hr Hb. unfold Re.sub_empty. cbn [String.length Re.remove].
  assert (M : Re.match_here r (String b s) = None).
  { destruct Hr as [-> | ->];
      unfold Re.match_here, Extractors.size_s, Extractors.size_wh;
      cbn -[Ascii.eqb]; now rewrite Hb. }
  now rewrite M.
Qed.

Lemma strip_sizes_skip b s :
  Ascii.eqb "=" b = false ->
  Extractors.strip_sizes (String b s) = String b (Extractors.strip_sizes s).
Proof.
  intros Hb. unfold Extractors.strip_sizes.
  rewrite (sub_empty_skip Extractors.size_s) by auto.
  now rewrite (sub_empty_skip Extractors.size_wh) by auto.
Qed.

Lemma strip_sizes_absolute x sfx :
  Spec.absolute x = true -> Spec.absolute (Extractors.strip_sizes x ++ sfx) = true.
Proof.
  unfold Spec.absolute. intros H. apply orb_true_iff in H as [H|H];
    apply startswith_app in H as [t ->]; cbn [append];
    repeat (rewrite strip_sizes_skip by reflexivity); reflexivity.
Qed.

Lemma with_protocol_absolute url :
  Extractors.proper_url url = true -> Spec.absolute (Extractors.with_protocol url) = true.
Proof.
  unfold Extractors.proper_url, Extractors.with_protocol, Spec.absolute.
  destruct (Py.startswith url "//") eqn:E.
  - intros _. apply startswith_app in E as [t ->]. reflexivity.
  - now rewrite orb_false_r.
Qed.

Lemma append_empty t : t ++ "" = t.
Proof. induction t; simpl; congruence. Qed.

Lemma clean_image_url_protocol (url : string) :
  Extractors.proper_url url = true ->
  exists v v',
    Extractors.clean_image_url url = Some v /\ Spec.absolute v = true /\
    Core.clean_image_url url = Some v' /\ Spec.absolute v' = true.
Proof.
  intros H. pose proof (with_protocol_absolute url H) as A.
  unfold Extractors.clean_image_url, Core.clean_image_url.
  assert (N : Urllib.is_empty url = false).
  { destruct url; [discriminate H|reflexivity]. }
  rewrite N.
  destruct (Py.contains "googleusercontent.com" (Extractors.with_protocol url)).
  - destruct (negb (Py.contains "=" _)).
    + do 2 eexists. repeat split; now apply strip_sizes_absolute.
    + destruct (negb _).
      * do 2 eexists. repeat split; now apply strip_sizes_absolute.
      * do 2 eexists. repeat split; [|now apply strip_sizes_absolute].
        rewrite <- (append_empty (Extractors.strip_sizes _)).
        now apply strip_sizes_absolute.
  - do 2 eexists. repeat split; assumption.
Qed.

(** Cleaning an image address that starts with [http://], [https://] or
    [//] gives, in both passes, an address that starts with a protocol. *)
Theorem clean_image_url_absolute (url : string) :
  Extractors.proper_url url = true ->
  exists v v',
    Extractors.clean_image_url url = Some v /\ Spec.absolute v = true /\
    Core.clean_image_url url = Some v' /\ Spec.absolute v' = true.
Proof. exact (clean_image_url_protocol url). Qed.

Lemma clean_image_url_absolute_witness :
  exists v v',
    Extractors.clean_image_url "//lh3.googleusercontent.com/p/XYZ=w80-h80-k-no" = Some v /\
    Spec.absolute v = true /\
    Core.clean_image_url "//lh3.googleusercontent.com/p/XYZ=w80-h80-k-no" = Some v' /\
    Spec.absolute v' = true.
Proof.
  apply clean_image_url_absolute. reflexivity.
Defined.

Lemma image_of_element_absolute is_valid clean el v :
  (forall u, is_valid u = true -> Extractors.proper_url u = true) ->
  (forall u x, Extractors.proper_url u = true -> clean u = Some x -> Spec.absolute x = true) ->
  Extractors.image_of_element is_valid clean el = Ok (Some v) ->
  Spec.absolute v = true.
Proof.
  intros Hv Hc. unfold Extractors.image_of_element, bind.
  destruct (or_await _ _) as [img|]; [|discriminate].
  destruct (Py.truthy img); cbn [andb]; [|discriminate].
  destruct (is_valid (Urllib.or_empty img)) eqn:V; [|discriminate].
  destruct (Py.truthy (clean _)); [|discriminate].
  intros [= E]. eapply Hc; [apply Hv; exact V|exact E].
Qed.

Lemma first_pass_valid_proper u :
  Extractors.is_valid_image_url u = true -> Extractors.proper_url u = true.
Proof.
  unfold Extractors.is_valid_image_url.
  destruct (Urllib.is_empty u); [discriminate|].
  destruct (Extractors.proper_url u); [reflexivity|discriminate].
Qed.

Lemma second_pass_valid_proper u :
  Core.is_valid_image_url u = true -> Extractors.proper_url u = true.
Proof.
  unfold Core.is_valid_image_url.
  destruct (Urllib.is_empty u); [discriminate|].
  destruct (Extractors.proper_url u); [reflexivity|discriminate].
Qed.

Lemma first_pass_clean_absolute u x :
  Extractors.proper_url u = true -> Extractors.clean_image_url u = Some x ->
  Spec.absolute x = true.
Proof.
  intros H E. destruct (clean_image_url_protocol u H) as (v & v' & E1 & A & _).
  congruence.
Qed.

Lemma second_pass_clean_absolute u x :
  Extractors.proper_url u = true -> Core.clean_image_url u = Some x ->
  Spec.absolute x = true.
Proof.
  intros H E. destruct (clean_image_url_protocol u H) as (v & v' & _ & _ & E1 & A).
  congruence.
Qed.

Lemma image_probe_absolute is_valid clean page selector v :
  (forall u, is_valid u = true -> Extractors.proper_url u = true) ->
  (forall u x, Extractors.proper_url u = true -> clean u = Some x -> Spec.absolute x = true) ->
  Extractors.image_probe is_valid clean page selector = Ok (Some v) ->
  Spec.absolute v = true.
Proof.
  intros Hv Hc. unfold Extractors.image_probe, bind.
  destruct (first_match page selector) as [[el|]|]; try discriminate.
  now apply image_of_element_absolute.
Qed.

Lemma first_image_absolute els v :
  Extractors.first_image els = Ok (Some v) -> Spec.absolute v = true.
Proof.
  induction els as [|el rest IH]; simpl; [discriminate|]. unfold bind.
  destruct (Extractors.image_of_element _ _ el) as [[x|]|] eqn:E; try discriminate.
  - intros [= <-]. revert E.
    apply image_of_element_absolute;
      [apply first_pass_valid_proper|apply first_pass_clean_absolute].
  - exact IH.
Qed.

Lemma image_fallback_absolute page selectors v :
  Extractors.image_fallback page selectors = Ok (Some v) -> Spec.absolute v = true.
Proof.
  induction selectors as [|sel rest IH]; simpl; [discriminate|]. unfold bind.
  destruct (locator page sel) as [els|]; [|discriminate].
  destruct (Extractors.first_image _) as [[x|]|] eqn:E; try discriminate.
  - intros [= <-]. now apply first_image_absolute in E.
  - exact IH.
Qed.

Lemma image_from_gallery_absolute page selectors v :
  Core.image_from_gallery page selectors = Ok (Some v) -> Spec.absolute v = true.
Proof.
  induction selectors as [|sel rest IH]; simpl; [discriminate|]. unfold bind.
  destruct (locator page sel) as [[|el els]|]; [exact IH| |discriminate].
  destruct (Extractors.image_of_element _ _ el) as [[x|]|] eqn:E; try discriminate.
  - intros [= <-]. revert E.
    apply image_of_element_absolute;
      [apply second_pass_valid_proper|apply second_pass_clean_absolute].
  - exact IH.
Qed.

Lemma image_by_click_absolute buttons page v :
  fst (Core.image_by_click page buttons) = Some v -> Spec.absolute v = true.
Proof.
  revert page. induction buttons as [|sel rest IH]; intros page; simpl; [discriminate|].
  destruct (first_match page sel) as [[el|]|]; [|apply IH|discriminate].
  destruct (click page sel) as [p1|]; [|discriminate].
  unfold bind.
  destruct (wait_for_timeout p1); [|discriminate].
  destruct (first_match p1 Core.revealed_image_selector) as [[img|]|]; try discriminate.
  destruct (get_attribute img "src") as [src|]; [|discriminate].
  destruct (Py.truthy src); cbn [andb]; [|discriminate].
  destruct (Core.is_valid_image_url _) eqn:V; [|discriminate].
  destruct (Py.truthy (Core.clean_image_url _)); [|discriminate].
  cbn [fst]. intros E.
  eapply second_pass_clean_absolute; [apply second_pass_valid_proper; exact V|exact E].
Qed.

(** Every image address that the first pass or the second pass returns
    starts with [http://] or [https://]. *)
Theorem extracted_image_absolute (page : Page) (v : string) :
  Extractors.extract_image page = Some v \/
  fst (Core.extract_image_advanced page) = Some v ->
  Spec.absolute v = true.
Proof.
  intros [H|H].
  - revert H. unfold Extractors.extract_image.
    destruct (try_each _ _) as [x|] eqn:E.
    + intros [= <-]. apply try_each_found in E as (sel & _ & E). revert E.
      apply image_probe_absolute;
        [apply first_pass_valid_proper|apply first_pass_clean_absolute].
    + destruct (Extractors.image_fallback _ _) as [r|] eqn:F; [|discriminate].
      intros ->. now apply image_fallback_absolute in F.
  - revert H. unfold Core.extract_image_advanced.
    destruct (try_each _ _) as [x|] eqn:E.
    + intros [= <-]. apply try_each_found in E as (sel & _ & E). revert E.
      apply image_probe_absolute;
        [apply second_pass_valid_proper|apply second_pass_clean_absolute].
    + destruct (Core.image_from_gallery _ _) as [[x|]|] eqn:G;
        try apply image_by_click_absolute.
      intros [= <-]. now apply image_from_gallery_absolute in G.
Qed.

Lemma extracted_image_absolute_witness :
  Spec.absolute "https://lh3.googleusercontent.com/a/avatar-photo=s1000" = true.
Proof.
  apply (extracted_image_absolute Examples.avatar_page).
  right. vm_compute. reflexivity.
Defined.

(** ** One candidate *)

Lemma extract_coordinates_from_url_valid u c :
  Core.extract_coordinates_from_url u = Some c -> Extractors.valid_range c = true.
Proof.
  unfold Core.extract_coordinates_from_url.
  destruct (Re.search _ u) as [m|]; [|discriminate].
  destruct (Re.group 1 _); [|discriminate].
  destruct (Re.group 2 _); [|discriminate].
  destruct (Extractors.parse_pair _ _) as [c'|]; [|discriminate].
  destruct (Extractors.valid_range c') eqn:E; [|discriminate].
  intros [= <-]. exact E.
Qed.

(** The coordinates in the address of the detail page win: when the
    address carries a pair in range, the record holds exactly that pair,
    whatever the extractors and the second pass find. *)
Theorem visit_prefers_url_coordinates (page : Page) (c : pyfloat * pyfloat) :
  Core.extract_coordinates_from_url (url page) = Some c ->
  latitude (Core.visit page) = Some (fst c) /\
  longitude (Core.visit page) = Some (snd c).
Proof.
  intros H. pose proof (extract_coordinates_from_url_valid _ _ H) as V.
  unfold Core.visit. rewrite H.
  destruct (Extractors.extract_place page) as [place p1].
  assert (HC : has_coordinates (Core.set_coordinates place c) = true).
  { unfold has_coordinates, Core.set_coordinates. cbn [latitude longitude]. exact V. }
  rewrite HC. cbn [negb].
  destruct (negb (Py.truthy (website (Core.set_coordinates place c)))).
  - destruct (Core.extract_website_advanced p1) as [[x|] p2].
    + destruct (Py.truthy (Some x)).
      * destruct (negb _); [|split; reflexivity].
        destruct (Core.extract_image_advanced p2) as [[y|] p3]; [|split; reflexivity].
        destruct (Py.truthy (Some y)); split; reflexivity.
      * destruct (negb _); [|split; reflexivity].
        destruct (Core.extract_image_advanced p2) as [[y|] p3]; [|split; reflexivity].
        destruct (Py.truthy (Some y)); split; reflexivity.
    + destruct (negb _); [|split; reflexivity].
      destruct (Core.extract_image_advanced p2) as [[y|] p3]; [|split; reflexivity].
      destruct (Py.truthy (Some y)); split; reflexivity.
  - destruct (negb _); [|split; reflexivity].
    destruct (Core.extract_image_advanced p1) as [[y|] p3]; [|split; reflexivity].
    destruct (Py.truthy (Some y)); split; reflexivity.
Qed.

Lemma visit_prefers_url_coordinates_witness :
  latitude (Core.visit Examples.platform_link_page) = Some (Finite (71 # 2)) /\
  longitude (Core.visit Examples.platform_link_page) = Some (Finite (-195 # 2)).
Proof.
  apply (visit_prefers_url_coordinates Examples.platform_link_page
           (Finite (71 # 2), Finite (-195 # 2))).
  vm_compute. reflexivity.
Defined.



(** ** The loop over the candidates *)

Lemma click_listing_three w idx s :
  exists k,
    1 <= k <= 3 /\
    Core.click_listing w idx Core.max_click_attempts 0 s
    = (Ok (Spec.opened w idx), Spec.logged s (repeat (Core.Click idx) k)) /\
    (Spec.opened w idx = None -> k = 3).
Proof.
  unfold Core.max_click_attempts, Spec.opened. cbn [Core.click_listing].
  unfold Core.try_except, Core.mbind, Core.call, Core.ret.
  destruct (Core.listing_click w idx 0) as [p0|].
  - exists 1. repeat split; [lia|lia|discriminate].
  - cbn [fst snd Core.places Core.trace Core.manager].
    destruct (Core.listing_click w idx 1) as [p1|].
    + exists 2. repeat split; try lia; try discriminate.
      unfold Spec.logged. cbn. now rewrite <- app_assoc.
    + cbn [fst snd Core.places Core.trace Core.manager].
      destruct (Core.listing_click w idx 2) as [p2|].
      * exists 3. repeat split; try lia; try discriminate.
        unfold Spec.logged. cbn. now rewrite <- !app_assoc.
      * exists 3. repeat split; try lia.
        unfold Spec.logged. cbn. now rewrite <- !app_assoc.
Qed.

Lemma process_listing_run (w : Core.World) (idx : nat) (s : Core.run_state) :
  exists k,
    1 <= k <= 3 /\
    Core.process_listing w idx s
    = (Ok tt, Core.mkState (Core.places s ++ Spec.yield w idx)
                           (Core.trace s ++ repeat (Core.Click idx) k)
                           (Core.manager s)) /\
    (Spec.opened w idx = None -> k = 3 /\ Spec.yield w idx = []).
Proof.
  destruct (click_listing_three w idx s) as (k & Hk & E & H3).
  exists k. split; [exact Hk|]. split.
  - unfold Core.process_listing, Core.try_except, Core.mbind. rewrite E.
    unfold Spec.yield. destruct (Spec.opened w idx) as [page|].
    + unfold Core.await. destruct (wait_for_timeout page).
      * destruct (Core.invalid_name (Core.visit page)).
        -- unfold Core.ret, Spec.logged. now rewrite app_nil_r.
        -- reflexivity.
      * unfold Core.ret, Spec.logged. now rewrite app_nil_r.
    + unfold Core.ret, Spec.logged. now rewrite app_nil_r.
  - intros N. split; [now apply H3|]. unfold Spec.yield. now rewrite N.
Qed.

(** A candidate is clicked at least once and at most three times, and
    nothing else of it reaches the trace; it adds the record it yields.
    When the three clicks fail, the candidate is skipped. *)
Theorem process_listing_clicks_and_yield (w : Core.World) (idx : nat) (s : Core.run_state) :
  exists k,
    1 <= k <= 3 /\
    Core.process_listing w idx s
    = (Ok tt, Core.mkState (Core.places s ++ Spec.yield w idx)
                           (Core.trace s ++ repeat (Core.Click idx) k)
                           (Core.manager s)) /\
    (Spec.opened w idx = None -> k = 3 /\ Spec.yield w idx = []).
Proof. exact (process_listing_run w idx s). Qed.

Lemma process_listing_clicks_and_yield_witness :
  exists k,
    1 <= k <= 3 /\
    Core.process_listing Examples.timeout_world 0 Core.initial
    = (Ok tt, Core.mkState (Core.places Core.initial ++ Spec.yield Examples.timeout_world 0)
                           (Core.trace Core.initial ++ repeat (Core.Click 0) k)
                           (Core.manager Core.initial)) /\
    (Spec.opened Examples.timeout_world 0 = None ->
     k = 3 /\ Spec.yield Examples.timeout_world 0 = []).
Proof.
  apply (process_listing_clicks_and_yield Examples.timeout_world 0 Core.initial).
Defined.

Lemma yield_short w idx : List.length (Spec.yield w idx) <= 1.
Proof.
  unfold Spec.yield. destruct (Spec.opened w idx) as [page|]; [|simpl; lia].
  destruct (wait_for_timeout page); [|simpl; lia].
  destruct (Core.invalid_name _); simpl; lia.
Qed.

(** The loop over the candidates returns the records the candidates
    yield, in the order of the candidates, cut at the number of records
    still missing for the target. *)
Theorem process_listings_takes_first_valid
    (w : Core.World) (total : Z) (listings : list nat) (s : Core.run_state) :
  Core.places (snd (Core.process_listings w total listings s))
  = (Core.places s
     ++ List.firstn (Z.to_nat (total - Z.of_nat (List.length (Core.places s))))
                    (List.flat_map (Spec.yield w) listings))%list.
Proof.
  revert s. induction listings as [|idx rest IH]; intros s; cbn [Core.process_listings].
  - cbn. now rewrite firstn_nil, app_nil_r.
  - unfold Core.mbind, Core.get_places.
    destruct (total <=? Z.of_nat (List.length (Core.places s)))%Z eqn:E.
    + apply Z.leb_le in E.
      replace (Z.to_nat _) with 0 by lia. cbn. now rewrite app_nil_r.
    + apply Z.leb_gt in E.
      destruct (process_listing_run w idx s) as (k & _ & -> & _).
      rewrite IH. cbn [Core.places flat_map].
      rewrite <- app_assoc. f_equal.
      rewrite length_app.
      pose proof (yield_short w idx) as L.
      destruct (Spec.yield w idx) as [|p [|p' ys]]; cbn [List.length app] in *; [| |lia].
      * now rewrite Nat.add_0_r.
      * replace (Z.to_nat (total - Z.of_nat (List.length (Core.places s))))
          with (S (Z.to_nat (total - Z.of_nat (List.length (Core.places s) + 1)))) by lia.
        reflexivity.
Qed.

(** A target that is not positive gives no record. *)
Theorem no_records_for_nonpositive_target
    (w : Core.World) (search_for : string) (total : Z) :
  (total <= 0)%Z ->
  Core.scrape_places w search_for total = Ok [] \/
  Core.scrape_places w search_for total = Raise.
Proof.
  intros H.
  destruct (run_grows w search_for total) as (added & E & _ & L).
  cbn [app List.length] in *.
  assert (N : Core.places (snd (Core.run w search_for total)) = []).
  { destruct (Core.places _); [reflexivity|]. cbn [List.length] in L. lia. }
  destruct (Core.scrape_places w search_for total) as [l|] eqn:R; [|now right].
  left. apply scrape_places_returns in R. congruence.
Qed.

Lemma no_records_for_nonpositive_target_witness :
  Core.scrape_places (Examples.smooth_world 3 (fun _ => Examples.titled_page "A"))
                     "sod farms" 0 = Ok [] \/
  Core.scrape_places (Examples.smooth_world 3 (fun _ => Examples.titled_page "A"))
                     "sod farms" 0 = Raise.
Proof.
  apply no_records_for_nonpositive_target. lia.
Defined.

(** ** A list that grows with every scroll *)

Section Growing.

Variables (w : Core.World) (total : Z) (f : nat -> nat) (k0 : nat).
Hypothesis wheel_works : forall k, Core.mouse_wheel w k = Ok tt.
Hypothesis counts : forall k, Core.listings_count w k = Ok (f k).
Hypothesis increasing : forall k, f k < f (S k).
Hypothesis before : forall k, k < k0 -> (Z.of_nat (f k) < total)%Z.
Hypothesis reached : (total <= Z.of_nat (f k0))%Z.

Lemma growing_from r a prev s :
  a <= k0 -> k0 < a + r -> prev < f a ->
  Core.scroll_loop w total r a prev 0 s
  = (Ok (k0, 0), Spec.logged s (repeat (Core.Wheel 15000) (S k0 - a))).
Proof.
  revert a prev s. induction r as [|r IH]; intros a prev s Ha Hr Hp; [lia|].
  cbn [Core.scroll_loop]. unfold Core.mbind, Core.call, Core.await.
  rewrite wheel_works, counts.
  destruct (total <=? Z.of_nat (f a))%Z eqn:E.
  - apply Z.leb_le in E.
    assert (a = k0).
    { destruct (Nat.eq_dec a k0) as [|N]; [assumption|].
      assert (L : a < k0) by lia. specialize (before a L). lia. }
    subst a. replace (S k0 - k0) with 1 by lia. reflexivity.
  - apply Z.leb_gt in E.
    assert (L : a < k0).
    { destruct (Nat.eq_dec a k0) as [->|N]; [lia|lia]. }
    destruct (Nat.eqb_spec (f a) prev) as [Q|_]; [lia|].
    rewrite IH; [|lia|lia|apply increasing].
    unfold Spec.logged. cbn [Core.places Core.trace Core.manager].
    rewrite <- app_assoc. replace (S k0 - a) with (S (S k0 - S a)) by lia.
    reflexivity.
Qed.

End Growing.

(** On a list that is not empty and grows with every scroll, the scroll
    loop stops at the first scroll after which the rendered count reaches
    the target: when that is scroll number [k0 + 1 <= 30], it has
    scrolled [k0 + 1] times and taken no corrective action. *)
Theorem scroll_loop_stops_at_target
    (w : Core.World) (total : Z) (f : nat -> nat) (k0 : nat) (s : Core.run_state) :
  (forall k, Core.mouse_wheel w k = Ok tt) ->
  (forall k, Core.listings_count w k = Ok (f k)) ->
  0 < f 0 ->
  (forall k, f k < f (S k)) ->
  k0 < Core.max_scroll_attempts ->
  (forall k, k < k0 -> (Z.of_nat (f k) < total)%Z) ->
  (total <= Z.of_nat (f k0))%Z ->
  Core.scroll_loop w total Core.max_scroll_attempts 0 0 0 s
  = (Ok (k0, 0), Spec.logged s (repeat (Core.Wheel 15000) (S k0))).
Proof.
  intros Hw Hc H0 Hi Hk Hb Hr.
  rewrite (growing_from w total f k0 Hw Hc Hi Hb Hr); [|lia|lia|exact H0].
  now rewrite Nat.sub_0_r.
Qed.

Lemma scroll_loop_stops_at_target_witness :
  Core.scroll_loop
    (Core.mkWorld (Ok tt) (Ok tt) (Ok tt) (Ok tt) (Ok tt) (Ok tt) (Ok tt)
                  (Ok tt) (Ok tt) (Ok tt) (Ok tt) (fun _ => Ok tt) (Ok tt) (Ok tt)
                  (fun _ => Ok tt) (fun k => Ok (S k)) (fun _ => Ok 1)
                  (fun _ => Ok tt) (fun _ => Ok tt) (Ok 10) (Ok 10)
                  (fun _ _ => Raise))
    10 Core.max_scroll_attempts 0 0 0 Core.initial
  = (Ok (9, 0), Spec.logged Core.initial (repeat (Core.Wheel 15000) 10)).
Proof.
  apply (scroll_loop_stops_at_target _ 10 S 9).
  - reflexivity.
  - reflexivity.
  - lia.
  - intros k. lia.
  - unfold Core.max_scroll_attempts. lia.
  - intros k H. lia.
  - lia.
Defined.

(** ** Shutting the browser down *)

Section Preserves.

Context {X : Type} (f : Core.run_state -> X).

Lemma preserves_ret A (a : A) : Spec.preserves f (Core.ret a).
Proof. intros s. reflexivity. Qed.

Lemma preserves_await A (o : outcome A) : Spec.preserves f (Core.await o).
Proof. intros s. reflexivity. Qed.

Lemma preserves_get_places : Spec.preserves f Core.get_places.
Proof. intros s. reflexivity. Qed.

Lemma preserves_get_manager : Spec.preserves f Core.get_manager.
Proof. intros s. reflexivity. Qed.

Lemma preserves_bind A B (m : Core.M A) (k : A -> Core.M B) :
  Spec.preserves f m -> (forall a, Spec.preserves f (k a)) ->
  Spec.preserves f (Core.mbind m k).
Proof.
  intros Hm Hk s. unfold Core.mbind. specialize (Hm s).
  destruct (m s) as [[a|] s']; simpl in *; [|exact Hm].
  now rewrite Hk.
Qed.

Lemma preserves_try_except A (m h : Core.M A) :
  Spec.preserves f m -> Spec.preserves f h -> Spec.preserves f (Core.try_except m h).
Proof.
  intros Hm Hh s. unfold Core.try_except. specialize (Hm s).
  destruct (m s) as [[a|] s']; simpl in *; [exact Hm|].
  now rewrite Hh.
Qed.

Lemma preserves_try_finally A (m : Core.M A) (g : Core.M unit) :
  Spec.preserves f m -> Spec.preserves f g -> Spec.preserves f (Core.try_finally m g).
Proof.
  intros Hm Hg s. unfold Core.try_finally. specialize (Hm s).
  destruct (m s) as [r s']; simpl in *. specialize (Hg s').
  destruct (g s') as [[u|] s'']; simpl in *; congruence.
Qed.

End Preserves.

Lemma manager_call A e (o : outcome A) : Spec.preserves Core.manager (Core.call e o).
Proof. intros s. reflexivity. Qed.

Lemma manager_append_place p : Spec.preserves Core.manager (Core.append_place p).
Proof. intros s. reflexivity. Qed.

(** One step of the proof that a program leaves the manager alone. *)
Ltac manager_step :=
  match goal with
  | |- Spec.preserves _ (Core.mbind _ _) => apply preserves_bind; [|intros ?]
  | |- Spec.preserves _ (Core.try_except _ _) => apply preserves_try_except
  | |- Spec.preserves _ (Core.try_finally _ _) => apply preserves_try_finally
  | |- Spec.preserves _ (Core.ret _) => apply preserves_ret
  | |- Spec.preserves _ (Core.await _) => apply preserves_await
  | |- Spec.preserves _ (Core.call _ _) => apply manager_call
  | |- Spec.preserves _ (Core.append_place _) => apply manager_append_place
  | |- Spec.preserves _ Core.get_places => apply preserves_get_places
  | |- Spec.preserves _ Core.get_manager => apply preserves_get_manager
  | |- Spec.preserves _ (if ?b then _ else _) => destruct b
  | |- Spec.preserves _ (match ?x with _ => _ end) => destruct x
  end.

Lemma manager_scroll_loop w total remaining a prev nn :
  Spec.preserves Core.manager (Core.scroll_loop w total remaining a prev nn).
Proof.
  revert a prev nn. induction remaining as [|r IH]; intros a prev nn; simpl.
  - repeat manager_step.
  - unfold Core.scroll_sidebar. repeat first [apply IH | manager_step].
Qed.

Lemma manager_click_listing w idx attempts a :
  Spec.preserves Core.manager (Core.click_listing w idx attempts a).
Proof.
  revert a. induction attempts as [|n IH]; intros a; simpl.
  - repeat manager_step.
  - repeat first [apply IH | manager_step].
Qed.

Lemma manager_process_listings w total listings :
  Spec.preserves Core.manager (Core.process_listings w total listings).
Proof.
  induction listings as [|idx rest IH]; simpl.
  - repeat manager_step.
  - unfold Core.process_listing.
    repeat first [apply IH | apply manager_click_listing | manager_step].
Qed.

Lemma manager_with_page w search_for total :
  Spec.preserves Core.manager (Core.with_page w (Core.session w search_for total)).
Proof.
  unfold Core.with_page, Core.new_page, Core.session.
  repeat first [apply manager_process_listings | apply manager_scroll_loop | manager_step].
Qed.

(** Once the context exists, the run ends by closing the context, the
    browser and playwright, in this order, whatever happened before, as
    long as closing the context and the browser does not raise.  When
    the page was opened too, it is closed just before. *)
Theorem run_ends_with_shutdown (w : Core.World) (search_for : string) (total : Z) :
  Core.playwright_start w = Ok tt ->
  Core.launch w = Ok tt ->
  Core.new_context w = Ok tt ->
  Core.context_close w = Ok tt ->
  Core.browser_close w = Ok tt ->
  exists t,
    Core.trace (snd (Core.run w search_for total))
    = (t ++ [Core.CloseContext; Core.CloseBrowser; Core.StopPlaywright])%list /\
    (Core.add_init_script w = Ok tt ->
     Core.context_new_page w = Ok tt ->
     Core.set_extra_http_headers w = Ok tt ->
     exists t', t = (t' ++ [Core.ClosePage])%list).
Proof.
  intros H1 H2 H3 H4 H5.
  unfold Core.run, Core.scrape.
  set (page_part := Core.with_page w (Core.session w search_for total)).
  assert (B : exists r s1,
             Core.try_except (Core.mbind (Core.start w) (fun _ => page_part))
                             (Core.ret tt) Core.initial = (r, s1) /\
             Core.manager s1 = Core.mkManager true true true /\
             (Core.add_init_script w = Ok tt ->
              Core.context_new_page w = Ok tt ->
              Core.set_extra_http_headers w = Ok tt ->
              exists t', Core.trace s1 = (t' ++ [Core.ClosePage])%list)).
  { unfold Core.try_except, Core.mbind at 1, Core.start, Core.mbind, Core.await,
      Core.set_manager, Core.ret.
    rewrite H1, H2, H3. cbn [Core.places Core.trace Core.manager Core.initial].
    set (s0 := Core.mkState [] [] (Core.mkManager true true true)).
    destruct (Core.add_init_script w) as [[]|].
    - pose proof (manager_with_page w search_for total s0) as M.
      fold page_part in M.
      assert (T : Core.context_new_page w = Ok tt ->
                  Core.set_extra_http_headers w = Ok tt ->
                  exists t', Core.trace (snd (page_part s0)) = (t' ++ [Core.ClosePage])%list).
      { intros N1 N2. subst page_part.
        unfold Core.with_page, Core.new_page, Core.mbind at 1, Core.mbind at 1, Core.await.
        rewrite N1, N2. unfold Core.try_finally, Core.call.
        destruct (Core.session w search_for total s0) as [r s'].
        destruct (Core.page_close w); cbn; eauto. }
      destruct (page_part s0) as [[u|] s1]; cbn [snd] in *.
      + exists (Ok u), s1. repeat split; [exact M|]. intros _. exact T.
      + exists (Ok tt), s1. repeat split; [exact M|]. intros _. exact T.
    - exists (Ok tt), s0. repeat split. intros N. discriminate N. }
  destruct B as (r & s1 & E & M & T).
  unfold Core.mbind at 1. unfold Core.try_finally. rewrite E.
  unfold Core.close, Core.mbind, Core.get_manager, Core.call, Core.get_places, Core.ret.
  rewrite M. cbn [Core.has_context Core.has_browser Core.has_playwright].
  rewrite H4, H5. cbn [Core.places Core.trace Core.manager].
  exists (Core.trace s1). split.
  - destruct (Core.playwright_stop w), r; cbn; now rewrite <- !app_assoc.
  - exact T.
Qed.

Lemma run_ends_with_shutdown_witness :
  exists t,
    Core.trace (snd (Core.run Examples.timeout_world "sod farms" 10))
    = (t ++ [Core.CloseContext; Core.CloseBrowser; Core.StopPlaywright])%list /\
    (Core.add_init_script Examples.timeout_world = Ok tt ->
     Core.context_new_page Examples.timeout_world = Ok tt ->
     Core.set_extra_http_headers Examples.timeout_world = Ok tt ->
     exists t', t = (t' ++ [Core.ClosePage])%list).
Proof.
  apply (run_ends_with_shutdown Examples.timeout_world "sod farms" 10); reflexivity.
Defined.

(** ** The records of a run and [utils.py] *)

Lemma extract_coordinates_valid page c :
  Extractors.extract_coordinates page = Some c -> Extractors.valid_range c = true.
Proof.
  unfold Extractors.extract_coordinates.
  destruct (Extractors.coordinates_from_url _ _) as [[c1|]|] eqn:E1.
  - intros [= <-]. now apply coordinates_from_url_valid in E1.
  - destruct (Extractors.coordinates_from_content page) as [[c2|]|] eqn:E2.
    + intros [= <-]. now apply coordinates_from_content_valid in E2.
    + destruct (Extractors.coordinates_from_attributes _ _) as [[c3|]|] eqn:E3;
        try discriminate.
      intros [= <-]. now apply coordinates_from_attributes_valid in E3.
    + destruct (Extractors.coordinates_from_attributes _ _) as [[c3|]|] eqn:E3;
        try discriminate.
      intros [= <-]. now apply coordinates_from_attributes_valid in E3.
  - destruct (Extractors.coordinates_from_content page) as [[c2|]|] eqn:E2.
    + intros [= <-]. now apply coordinates_from_content_valid in E2.
    + destruct (Extractors.coordinates_from_attributes _ _) as [[c3|]|] eqn:E3;
        try discriminate.
      intros [= <-]. now apply coordinates_from_attributes_valid in E3.
    + destruct (Extractors.coordinates_from_attributes _ _) as [[c3|]|] eqn:E3;
        try discriminate.
      intros [= <-]. now apply coordinates_from_attributes_valid in E3.
Qed.

(** The name and the rating of a record are those of the first pass; its
    coordinates are both unset or a pair in range. *)
Lemma visit_fields page :
  name (Core.visit page) = Extractors.extract_name page /\
  rating (Core.visit page) = Extractors.extract_rating page /\
  (has_coordinates (Core.visit page) = true \/
   (latitude (Core.visit page) = None /\ longitude (Core.visit page) = None)).
Proof.
  unfold Core.visit, Extractors.extract_place.
  destruct (Extractors.extract_website page) as [site p1].
  set (first := mkPlace _ _ _ _ _ _ _ _ _).
  assert (F : name first = Extractors.extract_name page /\
              rating first = Extractors.extract_rating page /\
              (has_coordinates first = true \/
               (latitude first = None /\ longitude first = None))).
  { subst first. cbn [name rating latitude longitude]. repeat split.
    unfold has_coordinates. cbn [latitude longitude].
    destruct (Extractors.extract_coordinates p1) as [c|] eqn:E; cbn [option_map].
    - left. now apply extract_coordinates_valid in E.
    - right. now split. }
  clearbody first.
  set (place1 := match Core.extract_coordinates_from_url (url page) with
                 | Some c => Core.set_coordinates first c
                 | None => first
                 end).
  assert (F1 : name place1 = Extractors.extract_name page /\
               rating place1 = Extractors.extract_rating page /\
               (has_coordinates place1 = true \/
                (latitude place1 = None /\ longitude place1 = None))).
  { subst place1.
    destruct (Core.extract_coordinates_from_url (url page)) as [c|] eqn:E; [|exact F].
    destruct F as (Fn & Fr & _). repeat split; try assumption.
    left. now apply extract_coordinates_from_url_valid in E. }
  clearbody place1. clear F first.
  set (place2 := if negb (has_coordinates place1) then _ else place1).
  assert (F2 : name place2 = Extractors.extract_name page /\
               rating place2 = Extractors.extract_rating page /\
               (has_coordinates place2 = true \/
                (latitude place2 = None /\ longitude place2 = None))).
  { subst place2. destruct (negb (has_coordinates place1)); [|exact F1].
    unfold Core.extract_coordinates_advanced.
    destruct (content p1) as [document|]; [|exact F1].
    destruct (Extractors.scan_content _ _ _) as [c|] eqn:E; [|exact F1].
    destruct F1 as (Fn & Fr & _). repeat split; try assumption.
    left. now apply scan_content_accepts in E. }
  clearbody place2. clear F1 place1. destruct F2 as (Fn & Fr & Fc).
  destruct (negb (Py.truthy (website place2))).
  - destruct (Core.extract_website_advanced p1) as [[x|] p2].
    + destruct (Py.truthy (Some x)).
      * destruct (negb _);
          [destruct (Core.extract_image_advanced p2) as [[y|] p3];
           [destruct (Py.truthy (Some y))|]|]; repeat split; assumption.
      * destruct (negb _);
          [destruct (Core.extract_image_advanced p2) as [[y|] p3];
           [destruct (Py.truthy (Some y))|]|]; repeat split; assumption.
    + destruct (negb _);
        [destruct (Core.extract_image_advanced p2) as [[y|] p3];
         [destruct (Py.truthy (Some y))|]|]; repeat split; assumption.
  - destruct (negb _);
      [destruct (Core.extract_image_advanced p1) as [[y|] p3];
       [destruct (Py.truthy (Some y))|]|]; repeat split; assumption.
Qed.

Lemma produced_valid p :
  Spec.produced p -> Utils.valid (Utils.validate_place_data p) = true.
Proof.
  intros (Hn & page & ->).
  destruct (visit_fields page) as (Fn & Fr & Fc).
  unfold Utils.validate_place_data.
  (* the name *)
  assert (N : negb (Py.truthy (name (Core.visit page))) ||
              String.eqb (Py.strip (Urllib.or_empty (name (Core.visit page)))) "" = false).
  { destruct (extract_name_shape page) as (n & En & Hcase).
    unfold Core.invalid_name in Hn. rewrite Fn, En in *.
    apply orb_false_iff in Hn as [T Hn]. rewrite T. cbn [orb Urllib.or_empty].
    destruct Hcase as [->|[Hne Hs]].
    - vm_compute in Hn. discriminate Hn.
    - rewrite Hs. now apply String.eqb_neq. }
  rewrite N.
  (* the coordinates *)
  assert (C : (if Extractors.is_some (latitude (Core.visit page)) ||
                  Extractors.is_some (longitude (Core.visit page))
               then negb (has_coordinates (Core.visit page)) else false) = false).
  { destruct Fc as [E | [E1 E2]].
    - rewrite E. destruct (Extractors.is_some _ || Extractors.is_some _); reflexivity.
    - rewrite E1, E2. reflexivity. }
  (* the rating *)
  assert (R : match rating (Core.visit page) with
              | Some r => negb (in_range 0 5 r)
              | None => false
              end = false).
  { rewrite Fr. destruct (Extractors.extract_rating page) as [r|] eqn:E; [|reflexivity].
    apply extract_rating_range in E. apply in_range_within in E. now rewrite E. }
  assert (W : forall v,
             Utils.valid
               (if Py.truthy (website (Core.visit page)) then
                  if negb (Py.startswith (Urllib.or_empty (website (Core.visit page))) "http://" ||
                           Py.startswith (Urllib.or_empty (website (Core.visit page))) "https://")
                  then Utils.mkValidation (Utils.valid v)
                         (Utils.issues v ++ ["Website URL missing protocol"])%list
                  else v
                else v) = Utils.valid v).
  { intros v. destruct (Py.truthy (website (Core.visit page))); [|reflexivity].
    destruct (negb (_ || _)); reflexivity. }
  cbv zeta. rewrite W.
  destruct (Extractors.is_some _ || Extractors.is_some _).
  - rewrite C. destruct (rating (Core.visit page)); [rewrite R|]; reflexivity.
  - destruct (rating (Core.visit page)); [rewrite R|]; reflexivity.
Qed.

(** Every record a run returns is valid for [validate_place_data], so
    [filter_valid_places] keeps the whole list. *)
Theorem filter_valid_places_keeps_scraped
    (w : Core.World) (search_for : string) (total : Z) (l : list Place) :
  Core.scrape_places w search_for total = Ok l ->
  Utils.filter_valid_places l = l.
Proof.
  intros H. apply scrape_places_returns in H. subst l.
  destruct (run_grows w search_for total) as (added & -> & F & _).
  cbn [app]. unfold Utils.filter_valid_places.
  induction F as [|p ps Hp _ IH]; [reflexivity|].
  cbn [filter]. rewrite (produced_valid p Hp). now rewrite IH.
Qed.

Lemma filter_valid_places_keeps_scraped_witness :
  Utils.filter_valid_places [Core.visit Examples.platform_link_page]
  = [Core.visit Examples.platform_link_page].
Proof.
  apply (filter_valid_places_keeps_scraped
           (Examples.smooth_world 1 (fun _ => Examples.platform_link_page)) "sod farms" 1).
  vm_compute. reflexivity.
Defined.

(** Every record a run returns has both coordinates unset, or both set
    and in range: no record carries half a pair or a value out of range. *)
Theorem returned_coordinates_complete
    (w : Core.World) (search_for : string) (total : Z) (l : list Place) :
  Core.scrape_places w search_for total = Ok l ->
  Forall (fun p => has_coordinates p = true \/
                   (latitude p = None /\ longitude p = None)) l.
Proof.
  intros H. apply scrape_places_returns in H. subst l.
  destruct (run_grows w search_for total) as (added & -> & F & _).
  cbn [app]. induction F as [|p ps Hp _ IH]; constructor; [|exact IH].
  destruct Hp as (_ & page & ->). apply visit_fields.
Qed.

Lemma returned_coordinates_complete_witness :
  Forall (fun p => has_coordinates p = true \/
                   (latitude p = None /\ longitude p = None))
         [Core.visit Examples.platform_link_page].
Proof.
  apply (returned_coordinates_complete
           (Examples.smooth_world 1 (fun _ => Examples.platform_link_page)) "sod farms" 1).
  vm_compute. reflexivity.
Defined.

(** [validate_place_data] marks a record as valid exactly when it raises
    no issue other than the missing protocol of the web site, which is
    reported without making the record invalid. *)
Theorem website_issue_keeps_record_valid (place : Place) :
  Utils.valid (Utils.validate_place_data place) = true <->
  (Utils.issues (Utils.validate_place_data place) = [] \/
   Utils.issues (Utils.validate_place_data place) = ["Website URL missing protocol"]).
Proof.
  unfold Utils.validate_place_data, Utils.invalid. cbv zeta.
  destruct (negb (Py.truthy (name place)) || _);
    destruct (Extractors.is_some (latitude place) || Extractors.is_some (longitude place));
    destruct (negb (has_coordinates place));
    destruct (rating place) as [r|]; try destruct (negb (in_range 0 5 r));
    destruct (Py.truthy (website place));
    try destruct (negb (_ || _));
    cbn; split; intros H; try discriminate; auto;
    destruct H as [H|H]; discriminate.
Qed.

(** ** The candidate buffer *)

Lemma div_half_even_exact q d : (0 < d)%Z -> div_half_even (q * d) d = q.
Proof.
  intros Hd. unfold div_half_even.
  rewrite Z.div_mul by lia. rewrite Z.mod_mul by lia.
  destruct (2 * 0 <? d)%Z eqn:E; [reflexivity|]. apply Z.ltb_ge in E. lia.
Qed.

(** Rounding [a / 2^j] is exact for a positive [a] of at most 53 bits. *)
Lemma round_pos_dyadic a j :
  (0 < a)%Z -> (0 <= j)%Z -> (j <= Z.log2 a)%Z -> (Z.log2 a - j <= 51)%Z ->
  (Z.log2 a <= 52)%Z ->
  round_pos a (2 ^ j) = Some (Qred (a # Z.to_pos (2 ^ j))).
Proof.
  intros Ha Hj Hl Hb Hc. unfold round_pos, ilog2_ratio.
  set (L := Z.log2 a) in *.
  assert (HL : (2 ^ L <= a)%Z) by (apply Z.log2_spec; lia).
  rewrite Z.log2_pow2 by lia.
  assert (E0 : (0 <=? L - j)%Z = true) by (apply Z.leb_le; lia). rewrite E0.
  assert (E1 : (2 ^ j * 2 ^ (L - j) <=? a)%Z = true).
  { apply Z.leb_le. rewrite <- Z.pow_add_r by lia. replace (j + (L - j))%Z with L by lia. exact HL. }
  rewrite E1.
  rewrite Z.max_l by lia.
  assert (E2 : (0 <=? L - j - 52)%Z = false) by (apply Z.leb_gt; lia). rewrite E2.
  cbn [andb].
  replace (- (L - j - 52))%Z with ((52 - L) + j)%Z by lia.
  rewrite Z.pow_add_r by lia. rewrite Z.mul_assoc.
  rewrite div_half_even_exact by (apply Z.pow_pos_nonneg; lia).
  f_equal. apply Qred_complete.
  unfold pow2. rewrite E2.
  unfold Qeq, Qmult, inject_Z. cbn [Qnum Qden].
  assert (P1 : (0 < 2 ^ (52 - L))%Z) by (apply Z.pow_pos_nonneg; lia).
  assert (P2 : (0 < 2 ^ j)%Z) by (apply Z.pow_pos_nonneg; lia).
  replace (- (L - j - 52))%Z with ((52 - L) + j)%Z by lia.
  rewrite Z.pow_add_r by lia.
  rewrite Pos2Z.inj_mul. rewrite !Z2Pos.id by lia. lia.
Qed.

Lemma round_nat n : (0 < n < 2 ^ 51)%Z -> round n 1 = Finite (inject_Z n).
Proof.
  intros [H0 H1]. unfold round. destruct n as [|p|p]; try lia.
  assert (L : (Z.log2 (Z.pos p) < 51)%Z) by (apply Z.log2_lt_pow2; lia).
  pose proof (Z.log2_nonneg (Z.pos p)).
  change 1%Z with (2 ^ 0)%Z at 1.
  rewrite round_pos_dyadic by lia.
  f_equal. change (Z.to_pos (2 ^ 0)) with 1%positive.
  apply Qred_identity. cbn [Qnum Qden inject_Z]. apply Z.gcd_1_r.
Qed.

(** For a target from 0 to below 2^51 the float product [total * 1.5] is
    exact: [int(total * buffer_multiplier)] is the integer part of
    [3 * total / 2]. *)
Theorem buffered_exact (total : Z) :
  (0 <= total < 2 ^ 51)%Z -> Core.buffered total = Some (3 * total / 2)%Z.
Proof.
  intros [H0 H1]. destruct (Z.eq_dec total 0) as [->|N]; [reflexivity|].
  unfold Core.buffered, of_int_rounded. rewrite round_nat by lia.
  unfold mul_1_5. cbn [Qnum Qden inject_Z].
  change (Z.pos 1 * 2)%Z with (2 ^ 1)%Z.
  assert (P : (0 < total * 3)%Z) by lia.
  unfold round. destruct (total * 3)%Z as [|p|p] eqn:E; try lia.
  rewrite <- E in *.
  assert (L1 : (1 <= Z.log2 (total * 3))%Z).
  { apply Z.log2_le_pow2; lia. }
  assert (L2 : (Z.log2 (total * 3) < 53)%Z).
  { apply Z.log2_lt_pow2; [lia|]. change (2 ^ 53)%Z with (4 * 2 ^ 51)%Z. lia. }
  rewrite round_pos_dyadic by lia.
  unfold to_int. f_equal.
  set (q := Qred (total * 3 # Z.to_pos (2 ^ 1))).
  assert (Q : (q == (total * 3 # 2))%Q) by (subst q; apply Qred_correct).
  assert (F : Qfloor q = Qfloor (total * 3 # 2)) by (now rewrite Q).
  unfold Qfloor in F. destruct q as [qn qd]. cbn [Qnum Qden].
  unfold Qeq in Q. cbn [Qnum Qden] in Q.
  rewrite Z.quot_div_nonneg by lia. rewrite F. f_equal. lia.
Qed.

Lemma buffered_exact_witness : Core.buffered 10 = Some (3 * 10 / 2)%Z.
Proof.
  apply buffered_exact. lia.
Defined.
